(** * weather.py: extraction, display and command-line driver

    A shallow embedding of [src/weather.py].  Python values are an
    inductive type, a dict is an association list in insertion order, and
    the effects of the script (lines printed, the HTTP request, exceptions,
    the exit status) are explicit: a computation yields the events it
    performed and either a value or the exception it raised.

    The clock, the network, the [requests] and [json] libraries and the
    settings of the interpreter are not part of the script: they enter
    through a [runtime] record, and the statements below hold for every
    runtime.  Standard error, where the interpreter writes the traceback
    of an uncaught exception, is not modelled; the exit status is. *)

From Stdlib Require Import String Ascii List ZArith NArith Bool Lia.
From Stdlib Require Import SpecFloat DecimalString.
Import ListNotations.

Open Scope list_scope.
Open Scope string_scope.

(** ** Python values *)

(** The values [json.loads] can produce, which are also the values the
    script stores in its own dict.  A [str] is kept as the bytes of its
    UTF-8 encoding, a lone surrogate (which [json.loads] accepts in a
    string) as the three bytes it would have as a code point; a dict
    keeps its items in insertion order. *)
#[warnings="-register-all"]
Inductive value : Type :=
| PyNone
| PyBool (b : bool)
| PyInt (z : Z)
| PyFloat (f : spec_float)
| PyStr (s : string)
| PyList (l : list value)
| PyDict (d : list (string * value)).

(** ** Exceptions *)

(** Classes of the exceptions that [requests] and [json] raise, as far as
    the [except] clauses of [get_weather] tell them apart.
    [requests_JSONDecodeError] is what [Response.json] raises since
    requests 2.27: it derives from both [RequestException] (through
    [InvalidJSONError]) and [json.JSONDecodeError].  Older releases let
    the decoder's own [json_JSONDecodeError] through. *)
Inductive lib_class : Type :=
| requests_ConnectionError
| requests_Timeout
| requests_HTTPError
| requests_TooManyRedirects
| requests_JSONDecodeError
| json_JSONDecodeError.

Inductive exn : Type :=
| KeyError
| IndexError
| TypeError
| AttributeError
| ValueError
| UnicodeEncodeError
| SystemExit (code : Z)
| LibError (c : lib_class) (msg : string).

(** [isinstance(e, requests.exceptions.RequestException)] *)
Definition is_RequestException (e : exn) : bool :=
  match e with
  | LibError json_JSONDecodeError _ => false
  | LibError _ _ => true
  | _ => false
  end.

(** [isinstance(e, json.JSONDecodeError)] *)
Definition is_JSONDecodeError (e : exn) : bool :=
  match e with
  | LibError requests_JSONDecodeError _ => true
  | LibError json_JSONDecodeError _ => true
  | _ => false
  end.

(** [str(e)] for the library exceptions, which carry a message. *)
Definition exn_str (e : exn) : string :=
  match e with
  | LibError _ m => m
  | _ => ""
  end.

(** ** Effects *)

(** What the script does to the outside: a [print] call (the text, to
    which [print] adds a newline) and the one HTTP request. *)
Inductive event : Type :=
| Print (s : string)
| HttpGet (url : string) (headers : list (string * string)) (timeout : Z).

Inductive result (A : Type) : Type :=
| Ok (a : A)
| Raise (e : exn).
Arguments Ok {A} a.
Arguments Raise {A} e.

(** A computation: the events performed, in order, and how it ended. *)
Definition M (A : Type) : Type := (list event * result A)%type.

Definition ret {A} (a : A) : M A := ([], Ok a).
Definition raise {A} (e : exn) : M A := ([], Raise e).
Definition emit (ev : event) : M unit := ([ev], Ok tt).
Definition print (s : string) : M unit := emit (Print s).

Definition bind {A B} (m : M A) (k : A -> M B) : M B :=
  match m with
  | (t, Ok a) => let (t', r) := k a in ((t ++ t')%list, r)
  | (t, Raise e) => (t, Raise e)
  end.

(** [try: m except ...]: [handler e] is [Some h] when a clause matches
    the exception, and [h] is then the body of that clause. *)
Definition try_except {A} (m : M A) (handler : exn -> option (M A)) : M A :=
  match m with
  | (t, Ok a) => (t, Ok a)
  | (t, Raise e) =>
      match handler e with
      | Some h => let (t', r) := h in ((t ++ t')%list, r)
      | None => (t, Raise e)
      end
  end.

Declare Scope py_scope.
Delimit Scope py_scope with py.
Notation "x <- m ;; k" := (bind m (fun x => k))
  (at level 61, m at next level, right associativity) : py_scope.
Notation "m ;;; k" := (bind m (fun _ => k))
  (at level 61, right associativity) : py_scope.
Open Scope py_scope.

Definition trace {A} (m : M A) : list event := fst m.
Definition outcome {A} (m : M A) : result A := snd m.

(** ** Operations on values *)

(** [k in d] and [d[k]] for a dict with [str] keys. *)
Fixpoint dict_get (d : list (string * value)) (k : string) : option value :=
  match d with
  | [] => None
  | (k', v) :: d' => if String.eqb k' k then Some v else dict_get d' k
  end.

(** [v.get(k, dflt)]: only a dict has a [get] method; on any other
    value the attribute lookup itself raises [AttributeError]. *)
Definition py_get (v : value) (k : string) (dflt : value) : M value :=
  match v with
  | PyDict d =>
      ret (match dict_get d k with Some x => x | None => dflt end)
  | _ => raise AttributeError
  end.

(** A byte [10xxxxxx] continues a UTF-8 encoded character. *)
Definition is_continuation (c : ascii) : bool :=
  N.eqb (N.land (N_of_ascii c) 192) 128.

Fixpoint take_continuation (s : string) : string :=
  match s with
  | String c r =>
      if is_continuation c then String c (take_continuation r) else ""
  | "" => ""
  end.

(** [v[0]]: the first item of a list, the first character of a [str];
    [IndexError] when these are empty, [KeyError] on a dict (whose keys
    are all [str], so [0] is not among them), [TypeError] on a value
    that cannot be subscripted. *)
Definition py_item0 (v : value) : M value :=
  match v with
  | PyList (x :: _) => ret x
  | PyList [] => raise IndexError
  | PyStr (String c r) => ret (PyStr (String c (take_continuation r)))
  | PyStr "" => raise IndexError
  | PyDict _ => raise KeyError
  | PyNone | PyBool _ | PyInt _ | PyFloat _ => raise TypeError
  end.

(** [v[k]] with a [str] key [k], as in [weather_info['location']]. *)
Definition py_item (v : value) (k : string) : M value :=
  match v with
  | PyDict d =>
      match dict_get d k with Some x => ret x | None => raise KeyError end
  | _ => raise TypeError
  end.

(** Truth value of [v], as tested by [if v:] and [not v]. *)
Definition py_truthy (v : value) : bool :=
  match v with
  | PyNone => false
  | PyBool b => b
  | PyInt z => negb (Z.eqb z 0)
  | PyFloat (S754_zero _) => false
  | PyFloat _ => true
  | PyStr "" => false
  | PyStr _ => true
  | PyList [] => false
  | PyList _ => true
  | PyDict [] => false
  | PyDict _ => true
  end.

(** ** The runtime *)

(** [datetime.now()]. *)
Record datetime : Type := {
  year : nat; month : nat; day : nat;
  hour : nat; minute : nat; second : nat
}.

(** What the script reads of a [requests.Response]. *)
Record response : Type := {
  status_code : Z;
  text : string
}.

(** Everything the script takes from outside its own source: the clock,
    the answer of the network to [requests.get], what [Response.json]
    makes of a response, and of the interpreter and its platform:
    - [year_padded]: whether [%Y] pads a year below 1000 with zeros (the
      C library decides);
    - [int_max_str_digits]: [sys.get_int_max_str_digits()], the number
      of digits beyond which turning an [int] into text raises
      [ValueError]; 0 when there is no limit;
    - [stdout_encodes]: whether [sys.stdout], with its encoding and
      error handler, can encode a text;
    - the two [repr] functions that are not modelled here (floats, and
      strings nested in a list or dict). *)
Record runtime : Type := {
  clock : datetime;
  requests_get : string -> list (string * string) -> Z -> result response;
  response_json : response -> result value;
  year_padded : bool;
  int_max_str_digits : nat;
  stdout_encodes : string -> bool;
  float_repr : spec_float -> string;
  str_repr : string -> string
}.

(** ** Text *)

Definition newline_char : ascii := "010"%char.
Definition newline : string := String newline_char "".

(** The degree sign, U+00B0, in UTF-8. *)
Definition degree : string := String "194"%char (String "176"%char "").

(** [s * n] *)
Fixpoint py_mul (s : string) (n : nat) : string :=
  match n with
  | O => ""
  | S n' => s ++ py_mul s n'
  end.

(** The decimal text of an integer. *)
Definition int_str (z : Z) : string := NilZero.string_of_int (Z.to_int z).

(** The number of decimal digits of an integer, sign apart. *)
Definition int_digits (z : Z) : nat :=
  String.length (NilZero.string_of_uint (N.to_uint (Z.abs_N z))).

Definition nat_str (n : nat) : string := NilEmpty.string_of_uint (Nat.to_uint n).

(** A number on at least [width] digits, as [%Y] (4), [%m], [%d], [%H],
    [%M] and [%S] (2) print it. *)
Definition zero_pad (width n : nat) : string :=
  py_mul "0" (width - String.length (nat_str n)) ++ nat_str n.

(** [d.strftime('%Y-%m-%d %H:%M:%S')]; [padded] says whether [%Y] pads
    the year to four digits. *)
Definition strftime (padded : bool) (d : datetime) : string :=
  (if padded then zero_pad 4 (year d) else nat_str (year d))
  ++ "-" ++ zero_pad 2 (month d) ++ "-"
  ++ zero_pad 2 (day d) ++ " " ++ zero_pad 2 (hour d) ++ ":"
  ++ zero_pad 2 (minute d) ++ ":" ++ zero_pad 2 (second d).

Section Rendering.
Variable R : runtime.

(** The text of an [int], for [str] and [repr]: [None] when the number
    has more digits than the limit allows. *)
Definition int_text (z : Z) : option string :=
  if Nat.eqb (int_max_str_digits R) 0
     || Nat.leb (int_digits z) (int_max_str_digits R)
  then Some (int_str z)
  else None.

(** [repr(v)]; [None] when an [int] in [v] is beyond the digit limit. *)
Fixpoint py_repr (v : value) : option string :=
  match v with
  | PyNone => Some "None"
  | PyBool true => Some "True"
  | PyBool false => Some "False"
  | PyInt z => int_text z
  | PyFloat f => Some (float_repr R f)
  | PyStr s => Some (str_repr R s)
  | PyList l =>
      match
        (fix items (l : list value) : option (list string) :=
           match l with
           | [] => Some []
           | x :: l' =>
               match py_repr x with
               | Some t =>
                   match items l' with
                   | Some ts => Some (t :: ts)
                   | None => None
                   end
               | None => None
               end
           end) l
      with
      | Some ts => Some ("[" ++ String.concat ", " ts ++ "]")
      | None => None
      end
  | PyDict d =>
      match
        (fix items (d : list (string * value)) : option (list string) :=
           match d with
           | [] => Some []
           | (k, x) :: d' =>
               match py_repr x with
               | Some t =>
                   match items d' with
                   | Some ts => Some ((str_repr R k ++ ": " ++ t) :: ts)
                   | None => None
                   end
               | None => None
               end
           end) d
      with
      | Some ts => Some ("{" ++ String.concat ", " ts ++ "}")
      | None => None
      end
  end.

(** [str(v)], which is also how an f-string renders [{v}]: the text, or
    the [ValueError] of an [int] beyond the digit limit. *)
Definition py_str (v : value) : result string :=
  match v with
  | PyStr s => Ok s
  | _ =>
      match py_repr v with
      | Some t => Ok t
      | None => Raise ValueError
      end
  end.
End Rendering.

(** ** parse_weather_data *)

(** The default [[{}]] of the four container lookups. *)
Definition empty_container : value := PyList [PyDict []].

Definition parse_error_message : string :=
  "Error: Unable to parse weather data".

(** The body of the [try] block: [current] first, then the items of the
    dict display in the order they are written. *)
Definition parse_body (data postal_code : value) : M value :=
  cc <- py_get data "current_condition" empty_container ;;
  current <- py_item0 cc ;;
  na <- py_get data "nearest_area" empty_container ;;
  area <- py_item0 na ;;
  an <- py_get area "areaName" empty_container ;;
  name <- py_item0 an ;;
  location <- py_get name "value" (PyStr "Unknown") ;;
  temperature <- py_get current "temp_C" (PyStr "N/A") ;;
  temperature_f <- py_get current "temp_F" (PyStr "N/A") ;;
  wd <- py_get current "weatherDesc" empty_container ;;
  desc <- py_item0 wd ;;
  condition <- py_get desc "value" (PyStr "N/A") ;;
  humidity <- py_get current "humidity" (PyStr "N/A") ;;
  wind_speed <- py_get current "windspeedKmph" (PyStr "N/A") ;;
  visibility <- py_get current "visibility" (PyStr "N/A") ;;
  ret (PyDict [ ("postal_code", postal_code);
                ("location", location);
                ("temperature", temperature);
                ("temperature_f", temperature_f);
                ("condition", condition);
                ("humidity", humidity);
                ("wind_speed", wind_speed);
                ("visibility", visibility) ]).

(** [except (KeyError, IndexError, TypeError):] *)
Definition parse_handler (e : exn) : option (M value) :=
  match e with
  | KeyError | IndexError | TypeError =>
      Some (print parse_error_message ;;; ret PyNone)
  | _ => None
  end.

Definition parse_weather_data (data postal_code : value) : M value :=
  try_except (parse_body data postal_code) parse_handler.

(** ** display_weather *)

Definition border : string := py_mul "=" 50.

(** [{v}] in an f-string. *)
Definition py_format (R : runtime) (v : value) : M string :=
  ([], py_str R v).

(** [print] of a line that holds text of the weather record: it raises
    [UnicodeEncodeError], and writes nothing, when standard output cannot
    encode the line.  The plain [print] above is kept for the lines that
    hold only fixed text, digits, the command-line argument or the
    message of a library. *)
Definition print_text (R : runtime) (s : string) : M unit :=
  if stdout_encodes R s then print s else raise UnicodeEncodeError.

(** Each f-string looks a field up and renders it before it goes on to
    the next, and is complete before its line is printed. *)
Definition display_weather (R : runtime) (weather_info : value) : M unit :=
  if negb (py_truthy weather_info) then ret tt
  else
    print (newline ++ border) ;;;
    location <- py_item weather_info "location" ;;
    location_text <- py_format R location ;;
    print_text R ("Weather Information for " ++ location_text) ;;;
    postal_code <- py_item weather_info "postal_code" ;;
    postal_code_text <- py_format R postal_code ;;
    print_text R ("Postal Code: " ++ postal_code_text) ;;;
    print ("Date: " ++ strftime (year_padded R) (clock R)) ;;;
    print border ;;;
    temperature <- py_item weather_info "temperature" ;;
    temperature_text <- py_format R temperature ;;
    temperature_f <- py_item weather_info "temperature_f" ;;
    temperature_f_text <- py_format R temperature_f ;;
    print_text R ("Temperature: " ++ temperature_text ++ degree ++ "C ("
                  ++ temperature_f_text ++ degree ++ "F)") ;;;
    condition <- py_item weather_info "condition" ;;
    condition_text <- py_format R condition ;;
    print_text R ("Condition: " ++ condition_text) ;;;
    humidity <- py_item weather_info "humidity" ;;
    humidity_text <- py_format R humidity ;;
    print_text R ("Humidity: " ++ humidity_text ++ "%") ;;;
    wind_speed <- py_item weather_info "wind_speed" ;;
    wind_speed_text <- py_format R wind_speed ;;
    print_text R ("Wind Speed: " ++ wind_speed_text ++ " km/h") ;;;
    visibility <- py_item weather_info "visibility" ;;
    visibility_text <- py_format R visibility ;;
    print_text R ("Visibility: " ++ visibility_text ++ " km") ;;;
    print (border ++ newline).

(** ** get_weather *)

Definition user_agent : string :=
  "Mozilla/5.0 (Windows NT 10.0; Win64; x64) AppleWebKit/537.36".

Definition weather_url (postal_code : string) : string :=
  "https://wttr.in/" ++ postal_code ++ "?format=j1".

Definition lift {A} (r : result A) : M A := ([], r).

(** [requests.get(url, headers=headers, timeout=timeout)]: the request
    goes out, and the network answers or the call raises. *)
Definition http_get (R : runtime) (url : string)
    (headers : list (string * string)) (timeout : Z) : M response :=
  emit (HttpGet url headers timeout) ;;;
  lift (requests_get R url headers timeout).

Definition status_message (status : Z) : string :=
  "Error: Failed to retrieve weather data (Status: " ++ int_str status ++ ")".

Definition transport_message (e : exn) : string :=
  "Error connecting to weather service: " ++ exn_str e.

Definition decode_message : string :=
  "Error: Invalid response from weather service".

(** The two [except] clauses, tried in the order they are written. *)
Definition get_weather_handler (e : exn) : option (M value) :=
  if is_RequestException e then
    Some (print (transport_message e) ;;; ret PyNone)
  else if is_JSONDecodeError e then
    Some (print decode_message ;;; ret PyNone)
  else None.

Definition get_weather (R : runtime) (postal_code : string) : M value :=
  try_except
    (response <- http_get R (weather_url postal_code)
                   [("User-Agent", user_agent)] 10 ;;
     if Z.eqb (status_code response) 200 then
       data <- lift (response_json R response) ;;
       parse_weather_data data (PyStr postal_code)
     else
       print (status_message (status_code response)) ;;;
       ret PyNone)
    get_weather_handler.

(** ** main *)

Definition usage_lines : list event :=
  [ Print "Usage: python weather.py <postal_code>";
    Print "Example: python weather.py 10001" ].

Definition failed_message : string :=
  "Failed to retrieve weather information.".

(** [sys.exit(code)] *)
Definition sys_exit {A} (code : Z) : M A := raise (SystemExit code).

(** [argv] is [sys.argv]: the script name, then the arguments. *)
Definition main (R : runtime) (argv : list string) : M unit :=
  (if negb (Nat.eqb (List.length argv) 2) then
     print "Usage: python weather.py <postal_code>" ;;;
     print "Example: python weather.py 10001" ;;;
     sys_exit 1
   else ret tt) ;;;
  let postal_code := nth 1 argv "" in
  print ("Retrieving weather information for postal code: "
         ++ postal_code ++ "...") ;;;
  weather_info <- get_weather R postal_code ;;
  if py_truthy weather_info then display_weather R weather_info
  else
    print failed_message ;;;
    sys_exit 1.

(** The exit status of the process: 0 when [main] returns, the argument
    of [sys.exit], and 1 when another exception reaches the top level. *)
Definition exit_status (r : result unit) : Z :=
  match r with
  | Ok _ => 0
  | Raise (SystemExit code) => code
  | Raise _ => 1
  end.

(** Running the script: what it did, and its exit status. *)
Definition run (R : runtime) (argv : list string) : list event * Z :=
  let (t, r) := main R argv in (t, exit_status r).

(** ** Standard output *)

(** The text the [print] calls of a trace put on standard output. *)
Fixpoint stdout (t : list event) : string :=
  match t with
  | [] => ""
  | Print s :: t' => s ++ String newline_char (stdout t')
  | HttpGet _ _ _ :: t' => stdout t'
  end.

Definition is_request (ev : event) : bool :=
  match ev with
  | HttpGet _ _ _ => true
  | Print _ => false
  end.

(** The lines of a text, as [text.split("\n")] gives them. *)
Fixpoint split_lines (s : string) : list string :=
  match s with
  | "" => [""]
  | String c r =>
      if Ascii.eqb c newline_char then "" :: split_lines r
      else match split_lines r with
           | l :: ls => String c l :: ls
           | [] => [String c ""]
           end
  end.

Fixpoint one_line (s : string) : bool :=
  match s with
  | "" => true
  | String c r => negb (Ascii.eqb c newline_char) && one_line r
  end.

Definition is_border (l : string) : bool := String.eqb l border.

(** What follows the first border line. *)
Fixpoint after_border (ls : list string) : list string :=
  match ls with
  | [] => []
  | l :: ls' => if is_border l then ls' else after_border ls'
  end.

(** What precedes the first border line. *)
Fixpoint until_border (ls : list string) : list string :=
  match ls with
  | [] => []
  | l :: ls' => if is_border l then [] else l :: until_border ls'
  end.

(** The data lines of a display: those between the border that closes
    the heading and the closing border. *)
Definition data_lines (ls : list string) : list string :=
  until_border (after_border (after_border ls)).

Definition display_lines (R : runtime) (weather_info : value) : list string :=
  split_lines (stdout (trace (display_weather R weather_info))).

(** [s] occurs in [text]. *)
Definition contains (text s : string) : Prop :=
  exists pre post, text = pre ++ s ++ post.

(** ** The extraction contract, in the words of the specification *)

(** A nested field path: object keys and array positions. *)
Inductive step : Type :=
| Key (k : string)
| Idx (n : nat).

(** The value a path leads to in a document; [None] when a level of the
    path is absent, is not of the type the step needs, or is out of
    range. *)
Fixpoint path_lookup (v : value) (p : list step) : option value :=
  match p with
  | [] => Some v
  | Key k :: p' =>
      match v with
      | PyDict d =>
          match dict_get d k with
          | Some x => path_lookup x p'
          | None => None
          end
      | _ => None
      end
  | Idx n :: p' =>
      match v with
      | PyList l =>
          match nth_error l n with
          | Some x => path_lookup x p'
          | None => None
          end
      | _ => None
      end
  end.

Definition or_default (o : option value) (dflt : value) : value :=
  match o with
  | Some v => v
  | None => dflt
  end.

Definition current_path (leaf : list step) : list step :=
  Key "current_condition" :: Idx 0 :: leaf.

(** The extracted fields: name in the record, path in the document,
    default. *)
Definition field_paths : list (string * list step * value) :=
  [ ("location",
     [Key "nearest_area"; Idx 0; Key "areaName"; Idx 0; Key "value"],
     PyStr "Unknown");
    ("temperature", current_path [Key "temp_C"], PyStr "N/A");
    ("temperature_f", current_path [Key "temp_F"], PyStr "N/A");
    ("condition",
     current_path [Key "weatherDesc"; Idx 0; Key "value"], PyStr "N/A");
    ("humidity", current_path [Key "humidity"], PyStr "N/A");
    ("wind_speed", current_path [Key "windspeedKmph"], PyStr "N/A");
    ("visibility", current_path [Key "visibility"], PyStr "N/A") ].

(** The record the specification describes: the postal code, and for
    each field the value at its path, or its default when the path is
    missing. *)
Definition spec_record (data postal_code : value) : value :=
  PyDict (("postal_code", postal_code)
          :: map (fun '(name, path, dflt) =>
                    (name, or_default (path_lookup data path) dflt))
                 field_paths).

(** A field of a record, when the value is a dict that has it. *)
Definition record_field (r : value) (k : string) : option value :=
  match r with
  | PyDict d => dict_get d k
  | _ => None
  end.

Definition record_keys (r : value) : list string :=
  match r with
  | PyDict d => map fst d
  | _ => []
  end.

(** The whole extraction failed: no record, and the generic report. *)
Definition parse_failure : M value :=
  ([Print parse_error_message], Ok PyNone).

(** *** Shapes of the containers the extractor indexes *)

(** [slot d k o]: under key [k] the object [d] offers the object [o] as
    first element, either because the key is absent (the lookup then
    falls back on [[{}]]) or because it holds an array starting with
    [o]. *)
Inductive slot (d : list (string * value)) (k : string)
  : list (string * value) -> Prop :=
| slot_absent :
    dict_get d k = None -> slot d k []
| slot_object o rest :
    dict_get d k = Some (PyList (PyDict o :: rest)) -> slot d k o.

(** Values on which [v[0]] raises. *)
Inductive not_indexable : value -> Prop :=
| ni_none : not_indexable PyNone
| ni_bool b : not_indexable (PyBool b)
| ni_int z : not_indexable (PyInt z)
| ni_float f : not_indexable (PyFloat f)
| ni_dict d : not_indexable (PyDict d)
| ni_empty_list : not_indexable (PyList [])
| ni_empty_str : not_indexable (PyStr "").

(** Values on which [v[0]] yields something that is not an object. *)
Inductive first_not_object : value -> Prop :=
| fno_str c r : first_not_object (PyStr (String c r))
| fno_list x l :
    (forall o, x <> PyDict o) -> first_not_object (PyList (x :: l)).

(** The key is present and its value cannot be indexed at 0. *)
Definition slot_broken (d : list (string * value)) (k : string) : Prop :=
  exists v, dict_get d k = Some v /\ not_indexable v.

(** The key is present and the first element of its value is not an
    object. *)
Definition slot_non_object (d : list (string * value)) (k : string) : Prop :=
  exists v, dict_get d k = Some v /\ first_not_object v.

(** Every container on the paths is absent or an array starting with an
    object. *)
Definition well_shaped (data : value) : Prop :=
  exists d cur desc area name,
    data = PyDict d /\
    slot d "current_condition" cur /\
    slot cur "weatherDesc" desc /\
    slot d "nearest_area" area /\
    slot area "areaName" name.

(** Some container on the paths is present but cannot be indexed. *)
Definition broken_container (data : value) : Prop :=
  exists d,
    data = PyDict d /\
    (slot_broken d "current_condition" \/
     slot_broken d "nearest_area" \/
     (exists cur, slot d "current_condition" cur /\
                  slot_broken cur "weatherDesc") \/
     (exists area, slot d "nearest_area" area /\
                   slot_broken area "areaName")).

(** The document is an object, and wherever the extractor takes the
    first element of a container to look a key up in it, that element is
    an object. *)
Definition lookups_on_objects (data : value) : Prop :=
  exists d,
    data = PyDict d /\
    ~ slot_non_object d "current_condition" /\
    ~ slot_non_object d "nearest_area" /\
    (forall cur, slot d "current_condition" cur ->
                 ~ slot_non_object cur "weatherDesc") /\
    (forall area, slot d "nearest_area" area ->
                  ~ slot_non_object area "areaName").

(** ** Taking the first element of a container *)

(** [v.get(k, [{}])[0]], the step the extractor repeats four times. *)
Definition first_of (v : value) (k : string) : M value :=
  c <- py_get v k empty_container ;; py_item0 c.

(** The exceptions the handler of [parse_weather_data] catches. *)
Definition caught (e : exn) : Prop :=
  e = KeyError \/ e = IndexError \/ e = TypeError.

Definition is_object (v : value) : Prop := exists o, v = PyDict o.

(** How a container step ends, by the state of the slot it reads. *)
Inductive first_of_spec (v : value) (k : string) : M value -> Prop :=
| fo_no_get :
    ~ is_object v -> first_of_spec v k (raise AttributeError)
| fo_object d o :
    v = PyDict d -> slot d k o -> first_of_spec v k (ret (PyDict o))
| fo_broken d e :
    v = PyDict d -> slot_broken d k -> caught e ->
    first_of_spec v k (raise e)
| fo_non_object d x :
    v = PyDict d -> slot_non_object d k -> ~ is_object x ->
    first_of_spec v k (ret x).

(** The three ways the extraction can end.  A record is returned only
    for a well-shaped document, and it is then the record of the
    specification; the handler runs only when a container is broken;
    [AttributeError] escapes only when a key is looked up in something
    that is not an object. *)
Inductive parse_outcome (data postal_code : value) : M value -> Prop :=
| po_record :
    well_shaped data ->
    parse_outcome data postal_code (ret (spec_record data postal_code))
| po_failure :
    broken_container data ->
    parse_outcome data postal_code parse_failure
| po_attribute_error :
    ~ lookups_on_objects data ->
    parse_outcome data postal_code (raise AttributeError).

(** ** The extraction claims *)

(** One of the field paths is missing from the document. *)
Definition missing_some_path (data : value) : Prop :=
  exists name path dflt,
    In (name, path, dflt) field_paths /\ path_lookup data path = None.

(** The contract as the specification words it: a record comes back,
    with the default at exactly the missing paths. *)
Definition extraction_contract (data postal_code : value) : Prop :=
  parse_weather_data data postal_code = ret (spec_record data postal_code).

(** Per field: a missing path gives the default in a returned record. *)
Definition defaults_when_missing (data postal_code : value) : Prop :=
  forall name path dflt,
    In (name, path, dflt) field_paths ->
    path_lookup data path = None ->
    exists t r,
      parse_weather_data data postal_code = (t, Ok r) /\
      record_field r name = Some dflt.

(** ** The display, line by line *)

(** The text an f-string puts for [{weather_info[k]}], when the field
    is there and can be rendered. *)
Definition field_text (R : runtime) (weather_info : value) (k : string)
  : string :=
  match record_field weather_info k with
  | Some v =>
      match py_str R v with
      | Ok t => t
      | Raise _ => ""
      end
  | None => ""
  end.

Definition record_names : list string :=
  [ "postal_code"; "location"; "temperature"; "temperature_f";
    "condition"; "humidity"; "wind_speed"; "visibility" ].

(** The record has the eight fields. *)
Definition has_fields (weather_info : value) : Prop :=
  forall k, In k record_names -> record_field weather_info k <> None.

(** Every field can be turned into text: no [int] in it is beyond the
    digit limit. *)
Definition renders (R : runtime) (weather_info : value) : Prop :=
  forall k v,
    In k record_names -> record_field weather_info k = Some v ->
    exists t, py_str R v = Ok t.

Definition heading_lines (R : runtime) (weather_info : value) : list string :=
  [ "Weather Information for " ++ field_text R weather_info "location";
    "Postal Code: " ++ field_text R weather_info "postal_code";
    "Date: " ++ strftime (year_padded R) (clock R) ].

Definition temperature_line (celsius fahrenheit : string) : string :=
  "Temperature: " ++ celsius ++ degree ++ "C (" ++ fahrenheit ++ degree ++ "F)".

Definition body_lines (R : runtime) (weather_info : value) : list string :=
  [ temperature_line (field_text R weather_info "temperature")
                     (field_text R weather_info "temperature_f");
    "Condition: " ++ field_text R weather_info "condition";
    "Humidity: " ++ field_text R weather_info "humidity" ++ "%";
    "Wind Speed: " ++ field_text R weather_info "wind_speed" ++ " km/h";
    "Visibility: " ++ field_text R weather_info "visibility" ++ " km" ].

(** The lines of a display that hold text of the record. *)
Definition text_lines (R : runtime) (weather_info : value) : list string :=
  ("Weather Information for " ++ field_text R weather_info "location")
    :: ("Postal Code: " ++ field_text R weather_info "postal_code")
    :: body_lines R weather_info.

(** Standard output can encode each of them. *)
Definition encodes (R : runtime) (weather_info : value) : Prop :=
  forall l, In l (text_lines R weather_info) -> stdout_encodes R l = true.

(** A record that can be displayed to the end: the eight fields are
    there, each can be rendered, and standard output can encode the
    lines they go on. *)
Definition presentable (R : runtime) (weather_info : value) : Prop :=
  has_fields weather_info /\ renders R weather_info /\
  encodes R weather_info.

(** A display that stops on an exception: [KeyError] when a field is
    missing, [TypeError] when the value is not a dict, [ValueError] when
    a field cannot be rendered, [UnicodeEncodeError] when a line cannot
    be encoded. *)
Definition display_stops (weather_info : value) (m : M unit) : Prop :=
  exists t e,
    m = (t, Raise e) /\
    ((e = KeyError /\ ~ has_fields weather_info) \/
     (e = TypeError /\ ~ is_object weather_info) \/
     e = ValueError \/
     e = UnicodeEncodeError).

(** A record that can be displayed, with every field rendered on one
    line. *)
Definition printable (R : runtime) (weather_info : value) : Prop :=
  presentable R weather_info /\
  forall k, In k record_names ->
            one_line (field_text R weather_info k) = true.

(** The arguments of the [print] calls of a display, in order. *)
Definition printed (R : runtime) (weather_info : value) : list string :=
  List.app ((newline ++ border) :: heading_lines R weather_info)
    (List.app (border :: body_lines R weather_info) [border ++ newline]).

(** *** Sample documents *)

Definition sample_current : list (string * value) :=
  [ ("temp_C", PyStr "20"); ("temp_F", PyStr "68");
    ("weatherDesc", PyList [PyDict [("value", PyStr "Sunny")]]);
    ("humidity", PyStr "50"); ("windspeedKmph", PyStr "10");
    ("visibility", PyStr "10") ].

Definition sample_area : value :=
  PyList [PyDict [("areaName", PyList [PyDict [("value", PyStr "New York")]])]].

Definition sample_document : value :=
  PyDict [ ("current_condition", PyList [PyDict sample_current]);
           ("nearest_area", sample_area) ].

Definition sample_record : value :=
  PyDict [ ("postal_code", PyStr "10001");
           ("location", PyStr "New York");
           ("temperature", PyStr "20");
           ("temperature_f", PyStr "68");
           ("condition", PyStr "Sunny");
           ("humidity", PyStr "50");
           ("wind_speed", PyStr "10");
           ("visibility", PyStr "10") ].

Definition default_record (postal_code : value) : value :=
  PyDict [ ("postal_code", postal_code);
           ("location", PyStr "Unknown");
           ("temperature", PyStr "N/A");
           ("temperature_f", PyStr "N/A");
           ("condition", PyStr "N/A");
           ("humidity", PyStr "N/A");
           ("wind_speed", PyStr "N/A");
           ("visibility", PyStr "N/A") ].

(** The conditions block is an empty array; the area is complete. *)
Definition empty_conditions_document : value :=
  PyDict [ ("current_condition", PyList []); ("nearest_area", sample_area) ].

(** Both top-level containers are arrays of objects; the description
    array inside the conditions is empty. *)
Definition empty_description_document : value :=
  PyDict [ ("current_condition",
            PyList [PyDict [("temp_C", PyStr "20"); ("weatherDesc", PyList [])]]);
           ("nearest_area", sample_area) ].

(** The first description is a number, not an object. *)
Definition number_description_document : value :=
  PyDict [ ("current_condition",
            PyList [PyDict [("weatherDesc", PyList [PyInt 5])]]) ].

(** The humidity leaf is missing, everything else is there. *)
Definition no_humidity_document : value :=
  PyDict [ ("current_condition",
            PyList [PyDict [ ("temp_C", PyStr "20"); ("temp_F", PyStr "68");
                             ("weatherDesc",
                              PyList [PyDict [("value", PyStr "Sunny")]]);
                             ("windspeedKmph", PyStr "10");
                             ("visibility", PyStr "10") ]]);
           ("nearest_area", sample_area) ].

(** The record of that document: the humidity is the default. *)
Definition no_humidity_record : value :=
  PyDict [ ("postal_code", PyStr "10001");
           ("location", PyStr "New York");
           ("temperature", PyStr "20");
           ("temperature_f", PyStr "68");
           ("condition", PyStr "Sunny");
           ("humidity", PyStr "N/A");
           ("wind_speed", PyStr "10");
           ("visibility", PyStr "10") ].

(** *** Sample runtimes *)

Definition sample_clock : datetime :=
  {| year := 2024; month := 2; day := 14;
     hour := 9; minute := 5; second := 30 |}.

(** The bytes of a surrogate code point, U+D800 to U+DFFF: ED, then A0
    to BF, then a third byte.  In the encoding of any other text ED is
    followed by 80 to 9F. *)
Fixpoint has_surrogate (s : string) : bool :=
  match s with
  | String a r =>
      match r with
      | String b _ =>
          (N.eqb (N_of_ascii a) 237 && N.leb 160 (N_of_ascii b))
          || has_surrogate r
      | "" => false
      end
  | "" => false
  end.

(** Standard output in UTF-8 with the strict error handler: it encodes
    every text but a surrogate. *)
Definition utf8_encodes (s : string) : bool := negb (has_surrogate s).

(** The service answers [status] with [body]; [Response.json] behaves as
    [decode] says.  The interpreter is CPython 3.11 or later on Linux
    with standard output in UTF-8.  The two [repr] functions are
    arbitrary: the sample records hold neither floats nor nested
    strings. *)
Definition sample_runtime (status : Z) (body : string)
    (decode : result value) : runtime :=
  {| clock := sample_clock;
     requests_get := fun _ _ _ => Ok {| status_code := status; text := body |};
     response_json := fun _ => decode;
     year_padded := false;
     int_max_str_digits := 4300;
     stdout_encodes := utf8_encodes;
     float_repr := fun _ => "nan";
     str_repr := fun s => "'" ++ s ++ "'" |}.

Definition decoder_message : string :=
  "Expecting value: line 1 column 1 (char 0)".

(** The service answers 200 with the sample document. *)
Definition sample_ok_runtime : runtime :=
  sample_runtime 200 "{...}" (Ok sample_document).

(** The service answers 404 with a body that is not JSON. *)
Definition not_found_runtime : runtime :=
  sample_runtime 404 "Not Found"
    (Raise (LibError requests_JSONDecodeError decoder_message)).

(** The service answers 200 with a body that is not JSON, and
    [Response.json] raises what requests 2.27 and later raise. *)
Definition invalid_json_runtime : runtime :=
  sample_runtime 200 "<html>"
    (Raise (LibError requests_JSONDecodeError decoder_message)).

(** The same answer, with the decoder's own [json.JSONDecodeError], as
    requests before 2.27 lets it through. *)
Definition plain_decoder_runtime : runtime :=
  sample_runtime 200 "<html>"
    (Raise (LibError json_JSONDecodeError decoder_message)).

(** The sample record, with a line break in the condition. *)
Definition two_line_record : value :=
  PyDict [ ("postal_code", PyStr "10001");
           ("location", PyStr "New York");
           ("temperature", PyStr "20");
           ("temperature_f", PyStr "68");
           ("condition", PyStr ("Sunny" ++ newline ++ "Windy"));
           ("humidity", PyStr "50");
           ("wind_speed", PyStr "10");
           ("visibility", PyStr "10") ].

(** The sample record, with a temperature of 4301 digits. *)
Definition huge_int_record : value :=
  PyDict [ ("postal_code", PyStr "10001");
           ("location", PyStr "New York");
           ("temperature", PyInt (10 ^ 4300));
           ("temperature_f", PyStr "68");
           ("condition", PyStr "Sunny");
           ("humidity", PyStr "50");
           ("wind_speed", PyStr "10");
           ("visibility", PyStr "10") ].

(** U+D800, a lone surrogate. *)
Definition lone_surrogate : string :=
  String "237"%char (String "160"%char (String "128"%char "")).

(** The sample record, with a lone surrogate for location. *)
Definition surrogate_record : value :=
  PyDict [ ("postal_code", PyStr "10001");
           ("location", PyStr lone_surrogate);
           ("temperature", PyStr "20");
           ("temperature_f", PyStr "68");
           ("condition", PyStr "Sunny");
           ("humidity", PyStr "50");
           ("wind_speed", PyStr "10");
           ("visibility", PyStr "10") ].

(** The display of the sample record, line by line. *)
Definition sample_display : list string :=
  display_lines sample_ok_runtime sample_record.

(** ** The fetch and the driver, case by case *)

(** The one request the script sends. *)
Definition the_request (postal_code : string) : event :=
  HttpGet (weather_url postal_code) [("User-Agent", user_agent)] 10.

(** What the network answers to it. *)
Definition answer (R : runtime) (postal_code : string) : result response :=
  requests_get R (weather_url postal_code) [("User-Agent", user_agent)] 10.

(** One of the two [except] clauses of [get_weather] takes [e]. *)
Definition handled (e : exn) : bool :=
  is_RequestException e || is_JSONDecodeError e.

(** The line the clause that takes [e] prints. *)
Definition handler_message (e : exn) : string :=
  if is_RequestException e then transport_message e else decode_message.

(** [e] comes out of [requests.get], or out of [Response.json] on an
    answer with status 200. *)
Definition library_raises (R : runtime) (postal_code : string) (e : exn)
  : Prop :=
  answer R postal_code = Raise e \/
  exists resp,
    answer R postal_code = Ok resp /\ status_code resp = 200%Z /\
    response_json R resp = Raise e.

(** The answer has status 200 and its body decodes to [data]. *)
Definition served (R : runtime) (postal_code : string) (data : value)
  : Prop :=
  exists resp,
    answer R postal_code = Ok resp /\ status_code resp = 200%Z /\
    response_json R resp = Ok data.

(** The ways [get_weather] can end, after the request went out. *)
Inductive fetch_outcome (R : runtime) (postal_code : string)
  : M value -> Prop :=
| fetch_handled e :
    library_raises R postal_code e -> handled e = true ->
    fetch_outcome R postal_code
      ([the_request postal_code; Print (handler_message e)], Ok PyNone)
| fetch_unhandled e :
    library_raises R postal_code e -> handled e = false ->
    fetch_outcome R postal_code ([the_request postal_code], Raise e)
| fetch_status resp :
    answer R postal_code = Ok resp -> status_code resp <> 200%Z ->
    fetch_outcome R postal_code
      ([the_request postal_code; Print (status_message (status_code resp))],
       Ok PyNone)
| fetch_parsed data :
    served R postal_code data ->
    fetch_outcome R postal_code
      (the_request postal_code
         :: trace (parse_weather_data data (PyStr postal_code)),
       outcome (parse_weather_data data (PyStr postal_code))).

(** The libraries raise only their own exceptions. *)
Definition library_errors_only (R : runtime) : Prop :=
  (forall url headers timeout e,
      requests_get R url headers timeout = Raise e ->
      exists c m, e = LibError c m) /\
  (forall resp e,
      response_json R resp = Raise e -> exists c m, e = LibError c m).

(** Two values of a top-level key that the extractor cannot tell apart:
    the same value, or two arrays with the same first element. *)
Definition same_first (o o' : option value) : Prop :=
  o = o' \/
  exists x l l', o = Some (PyList (x :: l)) /\ o' = Some (PyList (x :: l')).

Definition retrieving_message (postal_code : string) : string :=
  "Retrieving weather information for postal code: " ++ postal_code ++ "...".

(** *** More sample runtimes *)

(** The service cannot be reached. *)
Definition offline_runtime : runtime :=
  {| clock := sample_clock;
     requests_get := fun _ _ _ =>
       Raise (LibError requests_ConnectionError "Connection refused");
     response_json := fun _ => Ok PyNone;
     year_padded := false;
     int_max_str_digits := 4300;
     stdout_encodes := utf8_encodes;
     float_repr := fun _ => "nan";
     str_repr := fun s => "'" ++ s ++ "'" |}.

(** The service answers 200 with the JSON array [[]]. *)
Definition array_runtime : runtime :=
  sample_runtime 200 "[]" (Ok (PyList [])).


(** The sample document with a second conditions block, a second area
    and the forecast the service adds. *)
Definition long_document : value :=
  PyDict [ ("weather", PyList [PyDict [("date", PyStr "2024-02-14")]]);
           ("current_condition",
            PyList [PyDict sample_current; PyDict [("temp_C", PyStr "99")]]);
           ("nearest_area",
            PyList [PyDict [("areaName",
                             PyList [PyDict [("value", PyStr "New York")]])];
                    PyDict []]) ].

(** The computation sends no request. *)
Definition prints_only {A} (m : M A) : Prop :=
  filter is_request (trace m) = [].

(** The service answers 200 with the document whose conditions block is
    an empty array. *)
Definition empty_conditions_runtime : runtime :=
  sample_runtime 200 "{...}" (Ok empty_conditions_document).

(** * Proofs *)

(** ** Monad laws *)

Lemma bind_ret_l {A B} (a : A) (k : A -> M B) : bind (ret a) k = k a.
Proof. unfold bind, ret. destruct (k a) as [t r]. reflexivity. Qed.

Lemma bind_raise {A B} (e : exn) (k : A -> M B) : bind (raise e) k = raise e.
Proof. reflexivity. Qed.

Lemma bind_assoc {A B C} (m : M A) (k : A -> M B) (h : B -> M C) :
  bind (bind m k) h = bind m (fun a => bind (k a) h).
Proof.
  destruct m as [t [a | e]]; simpl; [ | reflexivity ].
  destruct (k a) as [t1 [b | e1]]; simpl; [ | reflexivity ].
  destruct (h b) as [t2 r2]. now rewrite app_assoc.
Qed.

Lemma bind_ext {A B} (m : M A) (k k' : A -> M B) :
  (forall a, k a = k' a) -> bind m k = bind m k'.
Proof.
  intros H. destruct m as [t [a | e]]; simpl; [ | reflexivity ].
  now rewrite H.
Qed.

Lemma try_except_ret {A} (a : A) h : try_except (ret a) h = ret a.
Proof. reflexivity. Qed.

(** ** The container step *)

Lemma not_object_dict o : ~ is_object (PyDict o) -> False.
Proof. intros H. apply H. now exists o. Qed.

(** The slot under [k] holds [c], on which [c[0]] raises [e]. *)
Ltac slot_is_broken Hk :=
  eapply fo_broken;
  [ reflexivity
  | eexists; split; [ exact Hk | constructor ]
  | unfold caught; auto ].

(** The slot under [k] holds [c], and [c[0]] is not an object. *)
Ltac slot_is_non_object Hk :=
  eapply fo_non_object;
  [ reflexivity
  | eexists; split; [ exact Hk | constructor; intros o Ho; discriminate ]
  | intros [o Ho]; discriminate ].

(** Every container step ends in one of the four ways. *)
Lemma first_of_cases v k : first_of_spec v k (first_of v k).
Proof.
  unfold first_of.
  destruct v as [ | b | z | f | s | l | d ];
    try (apply fo_no_get; intros [o Ho]; discriminate).
  unfold py_get. rewrite bind_ret_l.
  destruct (dict_get d k) as [c | ] eqn:Hk; simpl.
  - destruct c as [ | b | z | f | [ | a r ] | [ | x l ] | d' ]; simpl;
      try (slot_is_broken Hk).
    + slot_is_non_object Hk.
    + destruct x as [ | b | z | f | s | l' | o ];
        try (slot_is_non_object Hk).
      eapply fo_object; [ reflexivity | eapply slot_object; exact Hk ].
  - eapply fo_object; [ reflexivity | now apply slot_absent ].
Qed.

(** The extraction, with the four container steps made explicit. *)
Lemma parse_body_steps data postal_code :
  parse_body data postal_code =
  (current <- first_of data "current_condition" ;;
   area <- first_of data "nearest_area" ;;
   name <- first_of area "areaName" ;;
   location <- py_get name "value" (PyStr "Unknown") ;;
   temperature <- py_get current "temp_C" (PyStr "N/A") ;;
   temperature_f <- py_get current "temp_F" (PyStr "N/A") ;;
   desc <- first_of current "weatherDesc" ;;
   condition <- py_get desc "value" (PyStr "N/A") ;;
   humidity <- py_get current "humidity" (PyStr "N/A") ;;
   wind_speed <- py_get current "windspeedKmph" (PyStr "N/A") ;;
   visibility <- py_get current "visibility" (PyStr "N/A") ;;
   ret (PyDict [ ("postal_code", postal_code);
                 ("location", location);
                 ("temperature", temperature);
                 ("temperature_f", temperature_f);
                 ("condition", condition);
                 ("humidity", humidity);
                 ("wind_speed", wind_speed);
                 ("visibility", visibility) ])).
Proof.
  unfold parse_body, first_of.
  repeat first [ reflexivity | rewrite bind_assoc | apply bind_ext; intro ].
Qed.

Lemma first_of_slot d k o :
  slot d k o -> first_of (PyDict d) k = ret (PyDict o).
Proof.
  intros H. unfold first_of, py_get. rewrite bind_ret_l.
  destruct H as [H | o rest H]; now rewrite H.
Qed.

Lemma first_of_broken d k :
  slot_broken d k -> exists e, caught e /\ first_of (PyDict d) k = raise e.
Proof.
  intros [v [H Hv]]. unfold first_of, py_get. rewrite bind_ret_l, H.
  destruct Hv; simpl; eexists; (split; [ | reflexivity ]);
    unfold caught; auto.
Qed.

Lemma py_get_object o k dflt :
  py_get (PyDict o) k dflt = ret (or_default (dict_get o k) dflt).
Proof. reflexivity. Qed.

Lemma py_get_non_object v k dflt :
  ~ is_object v -> py_get v k dflt = raise AttributeError.
Proof.
  intros H. destruct v; try reflexivity. exfalso. apply H. now eexists.
Qed.

Lemma try_except_caught e :
  caught e -> try_except (raise e) parse_handler = parse_failure.
Proof. intros [-> | [-> | ->]]; reflexivity. Qed.

(** *** Slots: one state at a time *)

Lemma slot_functional d k o o' : slot d k o -> slot d k o' -> o = o'.
Proof.
  intros [H | o1 r1 H] [H' | o2 r2 H']; congruence.
Qed.

Lemma slot_not_broken d k o : slot d k o -> ~ slot_broken d k.
Proof.
  intros [H | o1 r1 H] [v [H' Hv]]; rewrite H in H'; [ discriminate | ].
  injection H' as <-. inversion Hv.
Qed.

Lemma slot_trichotomy d k :
  (exists o, slot d k o) \/ slot_broken d k \/ slot_non_object d k.
Proof.
  pose proof (first_of_cases (PyDict d) k) as H.
  inversion H as [Hn | d' o Hd Hs | d' e Hd Hs | d' x Hd Hs];
    try (injection Hd as <-).
  - exfalso. eapply not_object_dict, Hn.
  - left. eauto.
  - right. left. assumption.
  - right. right. assumption.
Qed.

(** *** What the extraction returns, by shape of the document *)

Lemma path_of_slot d k o rest_path :
  slot d k o ->
  path_lookup (PyDict d) (Key k :: Idx 0 :: rest_path) =
  match rest_path with
  | [] => match dict_get d k with Some _ => Some (PyDict o) | None => None end
  | Key k' :: p' =>
      match dict_get o k' with
      | Some x => path_lookup x p'
      | None => None
      end
  | Idx _ :: _ =>
      match dict_get d k with Some _ => None | None => None end
  end.
Proof.
  intros [H | o1 r1 H]; simpl; rewrite H; destruct rest_path as [ | [k' | n] p'];
    reflexivity.
Qed.

(** On a well-shaped document the extraction returns the record of the
    specification, and prints nothing. *)
Lemma parse_well_shaped data postal_code :
  well_shaped data ->
  parse_weather_data data postal_code =
  ret (spec_record data postal_code).
Proof.
  intros (d & cur & desc & area & name & -> & Hcur & Hdesc & Harea & Hname).
  unfold parse_weather_data. rewrite parse_body_steps.
  rewrite (first_of_slot _ _ _ Hcur), bind_ret_l.
  rewrite (first_of_slot _ _ _ Harea), bind_ret_l.
  rewrite (first_of_slot _ _ _ Hname), bind_ret_l.
  rewrite !py_get_object, !bind_ret_l.
  rewrite (first_of_slot _ _ _ Hdesc), bind_ret_l.
  rewrite !py_get_object, !bind_ret_l.
  rewrite try_except_ret.
  unfold spec_record, field_paths, current_path. cbn [map].
  rewrite !(path_of_slot _ _ _ _ Hcur), (path_of_slot _ _ _ _ Harea).
  assert (Hleaf : forall o k, match dict_get o k with
                              | Some x => path_lookup x []
                              | None => None
                              end = dict_get o k)
    by (intros o k; now destruct (dict_get o k)).
  rewrite !Hleaf.
  replace (match dict_get cur "weatherDesc" with
           | Some x => path_lookup x [Idx 0; Key "value"]
           | None => None
           end) with (dict_get desc "value").
  2:{ destruct Hdesc as [H | o1 r1 H]; rewrite H; simpl; [ reflexivity | ].
      now destruct (dict_get o1 "value"). }
  replace (match dict_get area "areaName" with
           | Some x => path_lookup x [Idx 0; Key "value"]
           | None => None
           end) with (dict_get name "value").
  2:{ destruct Hname as [H | o1 r1 H]; rewrite H; simpl; [ reflexivity | ].
      now destruct (dict_get o1 "value"). }
  reflexivity.
Qed.

(** *** The three outcomes *)

Lemma try_except_attribute_error :
  try_except (raise AttributeError) parse_handler = raise AttributeError.
Proof. reflexivity. Qed.

(** Case analysis on the container step [first_of v k] at the head of
    the computation [H]. *)
Ltac first_step H v k :=
  let Hc := fresh "Hc" in
  let Heq := fresh "Heq" in
  pose proof (first_of_cases v k) as Hc;
  inversion Hc as [ ? Heq | ? ? ? ? Heq | ? ? ? ? ? Heq | ? ? ? ? ? Heq ];
  rewrite <- Heq in H; clear Heq Hc;
  rewrite ?bind_ret_l, ?bind_raise in H;
  repeat match goal with
         | E : PyDict _ = PyDict _ |- _ => injection E as <-
         end.

Ltac object_contradiction :=
  match goal with
  | Hn : ~ is_object (PyDict ?o) |- _ =>
      exfalso; apply Hn; exists o; reflexivity
  | Hn : ~ is_object ?v, E : ?v = PyDict ?o |- _ =>
      exfalso; apply Hn; exists o; exact E
  end.

(** Run the computation [H : res = try_except ... parse_handler] to its
    end, splitting at each container step. *)
Ltac run_parse H :=
  repeat first
    [ object_contradiction
    | rewrite try_except_attribute_error in H
    | rewrite try_except_caught in H by assumption
    | match type of H with
      | _ = try_except (bind (first_of ?v ?k) _) _ => first_step H v k
      end
    | rewrite py_get_object, bind_ret_l in H
    | rewrite py_get_non_object, bind_raise in H by assumption ].

(** Every extraction ends in one of the three ways. *)
Lemma parse_cases data postal_code :
  parse_outcome data postal_code (parse_weather_data data postal_code).
Proof.
  destruct data as [ | b | z | f | s | l | d ];
    try (apply po_attribute_error; intros (d' & E & _); discriminate).
  remember (parse_weather_data (PyDict d) postal_code) as res eqn:Hres.
  pose proof Hres as Hrun.
  unfold parse_weather_data in Hrun. rewrite parse_body_steps in Hrun.
  run_parse Hrun.
  all: try (rewrite Hrun; apply po_failure; exists d;
            split; [ reflexivity | ];
            first [ left; assumption
                  | right; left; assumption
                  | right; right; left; eexists; split; eassumption
                  | right; right; right; eexists; split; eassumption ]).
  all: try (rewrite Hrun; apply po_attribute_error;
            intros (d' & E & Hcc & Hna & Hwd & Han); injection E as <-;
            first [ apply Hcc; assumption
                  | apply Hna; assumption
                  | eapply Hwd; eassumption
                  | eapply Han; eassumption ]).
  rewrite Hres, parse_well_shaped; [ apply po_record | ];
    do 5 eexists; repeat split; eassumption.
Qed.

(** A well-shaped document has no broken container. *)
Lemma well_shaped_not_broken data :
  well_shaped data -> ~ broken_container data.
Proof.
  intros (d & cur & desc & area & name & -> & Hcur & Hdesc & Harea & Hname).
  intros (d' & Hd & Hb). injection Hd as <-.
  destruct Hb as [Hb | [Hb | [(cur' & Hs & Hb) | (area' & Hs & Hb)]]].
  - exact (slot_not_broken _ _ _ Hcur Hb).
  - exact (slot_not_broken _ _ _ Harea Hb).
  - rewrite (slot_functional _ _ _ _ Hs Hcur) in Hb.
    exact (slot_not_broken _ _ _ Hdesc Hb).
  - rewrite (slot_functional _ _ _ _ Hs Harea) in Hb.
    exact (slot_not_broken _ _ _ Hname Hb).
Qed.

(** When every lookup is made on an object, a document that is not well
    shaped has a broken container. *)
Lemma shape_dichotomy data :
  lookups_on_objects data -> well_shaped data \/ broken_container data.
Proof.
  intros (d & -> & Hcc & Hna & Hwd & Han).
  destruct (slot_trichotomy d "current_condition") as [[cur Hcur] | [Hb | Hn]];
    [ | right; exists d; auto | contradiction ].
  destruct (slot_trichotomy d "nearest_area") as [[area Harea] | [Hb | Hn]];
    [ | right; exists d; auto | contradiction ].
  destruct (slot_trichotomy cur "weatherDesc") as [[desc Hdesc] | [Hb | Hn]];
    [ | right; exists d; split; [ reflexivity | ]; right; right; left; eauto
      | exfalso; eapply Hwd; eassumption ].
  destruct (slot_trichotomy area "areaName") as [[name Hname] | [Hb | Hn]];
    [ | right; exists d; split; [ reflexivity | ]; right; right; right; eauto
      | exfalso; eapply Han; eassumption ].
  left. exists d, cur, desc, area, name. auto.
Qed.

(** With every lookup made on an object, a broken container makes the
    whole extraction fail. *)
Lemma parse_broken data postal_code :
  lookups_on_objects data -> broken_container data ->
  parse_weather_data data postal_code = parse_failure.
Proof.
  intros Hobj Hbroken.
  destruct (parse_cases data postal_code) as [Hw | Hb | Hn].
  - exfalso. exact (well_shaped_not_broken _ Hw Hbroken).
  - reflexivity.
  - contradiction.
Qed.

(** *** Shapes exclude one another *)

Lemma slot_not_non_object d k o : slot d k o -> ~ slot_non_object d k.
Proof.
  intros [H | o1 r1 H] [v [H' Hv]]; rewrite H in H'; [ discriminate | ].
  injection H' as <-. inversion Hv as [ | x l Hx ]. now apply (Hx o1).
Qed.

Lemma well_shaped_lookups_on_objects data :
  well_shaped data -> lookups_on_objects data.
Proof.
  intros (d & cur & desc & area & name & -> & Hcur & Hdesc & Harea & Hname).
  exists d. repeat split.
  - exact (slot_not_non_object _ _ _ Hcur).
  - exact (slot_not_non_object _ _ _ Harea).
  - intros cur' Hs. rewrite (slot_functional _ _ _ _ Hs Hcur).
    exact (slot_not_non_object _ _ _ Hdesc).
  - intros area' Hs. rewrite (slot_functional _ _ _ _ Hs Harea).
    exact (slot_not_non_object _ _ _ Hname).
Qed.

(** *** The record of the specification *)

(** Each field of the specification's record is the value at its path,
    or the default. *)
Lemma spec_record_field data postal_code name path dflt :
  In (name, path, dflt) field_paths ->
  record_field (spec_record data postal_code) name =
  Some (or_default (path_lookup data path) dflt).
Proof.
  unfold field_paths. simpl In.
  intros H. repeat destruct H as [H | H]; try contradiction;
    injection H as <- <- <-; reflexivity.
Qed.

Lemma spec_record_keys data postal_code :
  record_keys (spec_record data postal_code) =
  [ "postal_code"; "location"; "temperature"; "temperature_f";
    "condition"; "humidity"; "wind_speed"; "visibility" ].
Proof. reflexivity. Qed.

Lemma path_lookup_key_idx0 data k p v :
  path_lookup data (Key k :: Idx 0 :: p) = Some v ->
  exists d x rest,
    data = PyDict d /\ dict_get d k = Some (PyList (x :: rest)) /\
    path_lookup x p = Some v.
Proof.
  destruct data as [ | b | z | f | s | l | d ]; try discriminate.
  simpl. destruct (dict_get d k) as [c | ] eqn:Hk; [ | discriminate ].
  destruct c as [ | b | z | f | s | l | d' ]; try discriminate.
  destruct l as [ | x rest ]; [ discriminate | ]. simpl.
  intros H. exists d, x, rest. auto.
Qed.

(** *** Shapes of the sample documents *)

Lemma well_shaped_sample : well_shaped sample_document.
Proof.
  exists [ ("current_condition", PyList [PyDict sample_current]);
           ("nearest_area", sample_area) ],
         sample_current, [("value", PyStr "Sunny")],
         [("areaName", PyList [PyDict [("value", PyStr "New York")]])],
         [("value", PyStr "New York")].
  repeat split; eapply slot_object; reflexivity.
Qed.

Lemma well_shaped_no_humidity : well_shaped no_humidity_document.
Proof.
  unfold no_humidity_document.
  do 5 eexists. split; [ reflexivity | ].
  repeat split; eapply slot_object; reflexivity.
Qed.

Lemma well_shaped_empty : well_shaped (PyDict []).
Proof.
  exists [], [], [], [], []. repeat split; now apply slot_absent.
Qed.

(** C1, as stated, fails: with an empty description array the path to the
    condition is missing while the temperature and the location are
    present, and no record is produced at all. *)
Lemma empty_description_no_record :
  missing_some_path empty_description_document /\
  path_lookup empty_description_document (current_path [Key "temp_C"])
  = Some (PyStr "20") /\
  parse_weather_data empty_description_document (PyStr "10001")
  = parse_failure /\
  ~ extraction_contract empty_description_document (PyStr "10001").
Proof.
  repeat split.
  - exists "condition",
      (current_path [Key "weatherDesc"; Idx 0; Key "value"]), (PyStr "N/A").
    split; [ | reflexivity ]. simpl. tauto.
  - unfold extraction_contract. discriminate.
Qed.

(** C1, amended: for a well-shaped document (each container on the paths
    absent, or an array starting with an object) the record has the
    caller's postal code, the default for exactly the missing paths and
    the document's value for the present ones. *)
Theorem parse_defaults_exactly_missing data postal_code :
  well_shaped data ->
  exists r,
    parse_weather_data data postal_code = ret r /\
    record_field r "postal_code" = Some postal_code /\
    forall name path dflt,
      In (name, path, dflt) field_paths ->
      (path_lookup data path = None -> record_field r name = Some dflt) /\
      (forall v, path_lookup data path = Some v ->
                 record_field r name = Some v).
Proof.
  intros Hw. exists (spec_record data postal_code).
  split; [ now apply parse_well_shaped | ].
  split; [ reflexivity | ].
  intros name path dflt Hin.
  rewrite (spec_record_field _ _ _ _ _ Hin).
  split; [ intros -> | intros v -> ]; reflexivity.
Qed.

Lemma parse_defaults_exactly_missing_witness :
  well_shaped no_humidity_document /\
  exists r,
    parse_weather_data no_humidity_document (PyStr "10001") = ret r /\
    record_field r "postal_code" = Some (PyStr "10001") /\
    forall name path dflt,
      In (name, path, dflt) field_paths ->
      (path_lookup no_humidity_document path = None ->
       record_field r name = Some dflt) /\
      (forall v, path_lookup no_humidity_document path = Some v ->
                 record_field r name = Some v).
Proof.
  split; [ exact well_shaped_no_humidity | ].
  apply (parse_defaults_exactly_missing no_humidity_document (PyStr "10001")).
  exact well_shaped_no_humidity.
Defined.

(** C2: a document whose first conditions block is the sample block and
    whose first area name is "New York" yields, for postal code "10001",
    exactly the sample record. *)
Theorem parse_sample_record data :
  path_lookup data [Key "current_condition"; Idx 0]
  = Some (PyDict sample_current) ->
  path_lookup data [Key "nearest_area"; Idx 0; Key "areaName"; Idx 0;
                    Key "value"]
  = Some (PyStr "New York") ->
  parse_weather_data data (PyStr "10001") = ret sample_record.
Proof.
  intros Hcc Hna.
  apply path_lookup_key_idx0 in Hcc as (d & x & rest & -> & Hcc & Hx).
  injection Hx as ->.
  apply path_lookup_key_idx0 in Hna as (d' & area & rest' & Hd & Hna & Han).
  injection Hd as <-.
  apply path_lookup_key_idx0 in Han as (a & name & rest'' & -> & Han & Hv).
  destruct name as [ | b | z | f | s | l | n ]; try discriminate.
  simpl in Hv. destruct (dict_get n "value") as [v | ] eqn:Hval;
    [ | discriminate ].
  injection Hv as ->.
  unfold parse_weather_data, parse_body, py_get.
  rewrite bind_ret_l, Hcc. simpl py_item0. rewrite bind_ret_l.
  rewrite bind_ret_l, Hna. simpl py_item0. rewrite bind_ret_l.
  rewrite bind_ret_l, Han. simpl py_item0. rewrite bind_ret_l.
  rewrite bind_ret_l, Hval. reflexivity.
Qed.

Lemma parse_sample_record_witness :
  parse_weather_data sample_document (PyStr "10001") = ret sample_record.
Proof.
  apply (parse_sample_record sample_document); reflexivity.
Defined.

(** C3, as stated, fails: with an empty conditions array the path to the
    temperature is out of range, and instead of a record with the
    default in it the extraction returns no record. *)
Lemma empty_conditions_not_defaulted :
  path_lookup empty_conditions_document (current_path [Key "temp_C"]) = None /\
  parse_weather_data empty_conditions_document (PyStr "10001")
  = parse_failure /\
  ~ defaults_when_missing empty_conditions_document (PyStr "10001").
Proof.
  repeat split.
  intros H.
  destruct (H "temperature" (current_path [Key "temp_C"]) (PyStr "N/A"))
    as (t & r & Hrun & Hfield).
  - simpl. tauto.
  - reflexivity.
  - injection Hrun as <- <-. discriminate.
Qed.

(** The handler does not cover [AttributeError]: a description that is a
    number makes it escape. *)
Lemma number_description_raises :
  parse_weather_data number_description_document (PyStr "10001")
  = raise AttributeError.
Proof. reflexivity. Qed.

(** C3, amended: on a document that is an object and in which every key
    lookup is made on an object, the extraction never raises.  Either no
    present container is broken, and it returns the record, with the
    default for every field whose path is missing; or a present
    container cannot be indexed at 0, and it returns no record and
    prints the generic report. *)
Theorem parse_defaults_or_fails data postal_code :
  lookups_on_objects data ->
  (~ broken_container data /\
   parse_weather_data data postal_code = ret (spec_record data postal_code) /\
   forall name path dflt,
     In (name, path, dflt) field_paths ->
     path_lookup data path = None ->
     record_field (spec_record data postal_code) name = Some dflt)
  \/
  (broken_container data /\
   parse_weather_data data postal_code = parse_failure).
Proof.
  intros Hobj. destruct (shape_dichotomy data Hobj) as [Hw | Hb].
  - left. split; [ now apply well_shaped_not_broken | ].
    split; [ now apply parse_well_shaped | ].
    intros name path dflt Hin Hmiss.
    now rewrite (spec_record_field _ _ _ _ _ Hin), Hmiss.
  - right. split; [ assumption | now apply parse_broken ].
Qed.

Lemma lookups_on_objects_empty_conditions :
  lookups_on_objects empty_conditions_document.
Proof.
  unfold empty_conditions_document. eexists. split; [ reflexivity | ].
  repeat split.
  - intros (v & Hv & Hn). injection Hv as <-. inversion Hn.
  - intros (v & Hv & Hn). injection Hv as <-.
    inversion Hn as [ | x l Hx ]. now eapply Hx.
  - intros cur Hs. inversion Hs; discriminate.
  - intros area Hs. inversion Hs as [ H | o rest H ]; [ discriminate | ].
    injection H as <- <-.
    intros (v & Hv & Hn). injection Hv as <-.
    inversion Hn as [ | x l Hx ]. now eapply Hx.
Qed.

Lemma parse_defaults_or_fails_witness :
  lookups_on_objects empty_conditions_document /\
  ((~ broken_container empty_conditions_document /\
    parse_weather_data empty_conditions_document (PyStr "10001")
    = ret (spec_record empty_conditions_document (PyStr "10001")) /\
    forall name path dflt,
      In (name, path, dflt) field_paths ->
      path_lookup empty_conditions_document path = None ->
      record_field (spec_record empty_conditions_document (PyStr "10001")) name
      = Some dflt)
   \/
   (broken_container empty_conditions_document /\
    parse_weather_data empty_conditions_document (PyStr "10001")
    = parse_failure)).
Proof.
  split; [ exact lookups_on_objects_empty_conditions | ].
  apply (parse_defaults_or_fails empty_conditions_document (PyStr "10001")).
  exact lookups_on_objects_empty_conditions.
Defined.

(** C4, as stated, fails in both directions: with both top-level
    containers absent the extraction succeeds, and with both present as
    arrays of objects it fails when the description array nested in the
    conditions is empty. *)
Lemma absent_containers_no_failure :
  (record_field (PyDict []) "current_condition" = None /\
   record_field (PyDict []) "nearest_area" = None /\
   parse_weather_data (PyDict []) (PyStr "10001") <> parse_failure) /\
  ((exists cur rest,
      record_field empty_description_document "current_condition"
      = Some (PyList (PyDict cur :: rest))) /\
   (exists area rest,
      record_field empty_description_document "nearest_area"
      = Some (PyList (PyDict area :: rest))) /\
   parse_weather_data empty_description_document (PyStr "10001")
   = parse_failure).
Proof.
  split; repeat split; try discriminate; do 2 eexists; reflexivity.
Qed.

(** C4, amended: on a document that is an object and in which every key
    lookup is made on an object, the extraction fails as a whole (no
    record, the generic report) if and only if one of the containers it
    indexes (current_condition, nearest_area, areaName, weatherDesc) is
    present but cannot be indexed at 0; absent containers do not make it
    fail, and a missing field never fails the operation: with no broken
    container, a missing path only defaults its field. *)
Theorem parse_fails_iff_broken data postal_code :
  lookups_on_objects data ->
  (parse_weather_data data postal_code = parse_failure
   <-> broken_container data) /\
  (~ broken_container data ->
   forall name path dflt,
     In (name, path, dflt) field_paths ->
     path_lookup data path = None ->
     exists r,
       parse_weather_data data postal_code = ret r /\
       record_field r name = Some dflt).
Proof.
  intros Hobj. split; [ split | ].
  - intros Hfail. destruct (shape_dichotomy data Hobj) as [Hw | Hb];
      [ | assumption ].
    rewrite (parse_well_shaped _ postal_code Hw) in Hfail. discriminate.
  - now apply parse_broken.
  - intros Hnb name path dflt Hin Hmiss.
    destruct (shape_dichotomy data Hobj) as [Hw | Hb]; [ | contradiction ].
    exists (spec_record data postal_code).
    split; [ now apply parse_well_shaped | ].
    now rewrite (spec_record_field _ _ _ _ _ Hin), Hmiss.
Qed.

Lemma parse_fails_iff_broken_witness :
  lookups_on_objects no_humidity_document /\
  (parse_weather_data no_humidity_document (PyStr "10001") = parse_failure
   <-> broken_container no_humidity_document) /\
  (~ broken_container no_humidity_document ->
   forall name path dflt,
     In (name, path, dflt) field_paths ->
     path_lookup no_humidity_document path = None ->
     exists r,
       parse_weather_data no_humidity_document (PyStr "10001") = ret r /\
       record_field r name = Some dflt).
Proof.
  split; [ exact (well_shaped_lookups_on_objects _ well_shaped_no_humidity) | ].
  apply (parse_fails_iff_broken no_humidity_document (PyStr "10001")).
  exact (well_shaped_lookups_on_objects _ well_shaped_no_humidity).
Defined.

(** C9: whenever the extraction returns a record, the record has exactly
    the eight fields, the postal code is the caller's value unchanged,
    and every other field is the value at its path in the document, or
    its default when that path is missing. *)
Theorem parse_record_complete data postal_code t r :
  parse_weather_data data postal_code = (t, Ok r) ->
  r <> PyNone ->
  record_keys r =
  [ "postal_code"; "location"; "temperature"; "temperature_f";
    "condition"; "humidity"; "wind_speed"; "visibility" ] /\
  record_field r "postal_code" = Some postal_code /\
  forall name path dflt,
    In (name, path, dflt) field_paths ->
    exists v,
      record_field r name = Some v /\
      (path_lookup data path = None -> v = dflt) /\
      (forall x, path_lookup data path = Some x -> v = x).
Proof.
  intros Hrun Hr.
  pose proof (parse_cases data postal_code) as Hc. rewrite Hrun in Hc.
  inversion Hc as [ Hw Heq | Hb Heq | Hn Heq ].
  - split; [ reflexivity | ]. split; [ reflexivity | ].
    intros name path dflt Hin.
    exists (or_default (path_lookup data path) dflt).
    split; [ now apply spec_record_field | ].
    split; [ intros -> | intros x -> ]; reflexivity.
  - congruence.
Qed.

Lemma parse_record_complete_witness :
  record_keys no_humidity_record =
  [ "postal_code"; "location"; "temperature"; "temperature_f";
    "condition"; "humidity"; "wind_speed"; "visibility" ] /\
  record_field no_humidity_record "postal_code" = Some (PyStr "10001") /\
  forall name path dflt,
    In (name, path, dflt) field_paths ->
    exists v,
      record_field no_humidity_record name = Some v /\
      (path_lookup no_humidity_document path = None -> v = dflt) /\
      (forall x, path_lookup no_humidity_document path = Some x -> v = x).
Proof.
  apply (parse_record_complete no_humidity_document (PyStr "10001") []
           no_humidity_record).
  - reflexivity.
  - discriminate.
Defined.

(** C10: the empty object is extracted to the record of all defaults,
    whatever the postal code; no failure is reported. *)
Theorem parse_empty_object postal_code :
  parse_weather_data (PyDict []) postal_code = ret (default_record postal_code) /\
  parse_weather_data (PyDict []) postal_code <> parse_failure.
Proof. split; [ reflexivity | discriminate ]. Qed.

(** ** Lines of the display *)

Lemma one_line_app s r : one_line (s ++ r) = one_line s && one_line r.
Proof.
  induction s as [ | c s IH ]; simpl; [ reflexivity | ].
  now rewrite IH, andb_assoc.
Qed.

Lemma one_line_py_mul s n : one_line s = true -> one_line (py_mul s n) = true.
Proof.
  intros H. induction n as [ | n IH ]; simpl; [ reflexivity | ].
  now rewrite one_line_app, H, IH.
Qed.

Lemma one_line_uint u : one_line (NilEmpty.string_of_uint u) = true.
Proof. induction u; simpl; auto. Qed.

Lemma one_line_zero_pad w n : one_line (zero_pad w n) = true.
Proof.
  unfold zero_pad, nat_str.
  now rewrite one_line_app, one_line_py_mul, one_line_uint.
Qed.

Lemma one_line_strftime padded d : one_line (strftime padded d) = true.
Proof.
  unfold strftime. rewrite one_line_app.
  replace (one_line (if padded then zero_pad 4 (year d)
                     else nat_str (year d))) with true
    by (destruct padded;
        [ now rewrite one_line_zero_pad
        | unfold nat_str; now rewrite one_line_uint ]).
  simpl.
  repeat (rewrite one_line_app, one_line_zero_pad; simpl).
  apply one_line_zero_pad.
Qed.

(** A text that starts with a line [s] and a newline. *)
Lemma split_lines_line s r :
  one_line s = true ->
  split_lines (s ++ String newline_char r) = s :: split_lines r.
Proof.
  induction s as [ | c s IH ]; simpl; intros H.
  - reflexivity.
  - apply andb_prop in H as [Hc Hs].
    apply negb_true_iff in Hc. rewrite Hc, (IH Hs). reflexivity.
Qed.

Lemma one_line_not_border_prefix c s r :
  Ascii.eqb c "="%char = false -> is_border (String c s ++ r) = false.
Proof. intros H. unfold is_border, border. simpl. now rewrite H. Qed.

Lemma split_lines_newline r :
  split_lines (String newline_char r) = "" :: split_lines r.
Proof. reflexivity. Qed.

Lemma string_app_assoc (a b c : string) : (a ++ b) ++ c = a ++ (b ++ c).
Proof. induction a as [ | x a IH ]; simpl; [ reflexivity | now rewrite IH ]. Qed.

Lemma one_line_border : one_line border = true.
Proof. reflexivity. Qed.

(** ** The steps of a display *)

Lemma py_item_some d k v :
  dict_get d k = Some v -> py_item (PyDict d) k = ret v.
Proof. intros H. unfold py_item. now rewrite H. Qed.

Lemma py_item_none d k :
  dict_get d k = None -> py_item (PyDict d) k = raise KeyError.
Proof. intros H. unfold py_item. now rewrite H. Qed.

Lemma py_format_ok R v t : py_str R v = Ok t -> py_format R v = ret t.
Proof. unfold py_format. now intros ->. Qed.

Lemma py_format_raise R v e :
  py_str R v = Raise e -> py_format R v = raise e.
Proof. unfold py_format. now intros ->. Qed.

(** Rendering fails only with [ValueError]. *)
Lemma py_str_raises R v e : py_str R v = Raise e -> e = ValueError.
Proof.
  unfold py_str. destruct v; try discriminate;
    destruct (py_repr R _); intros H; congruence.
Qed.

Lemma print_text_true R l :
  stdout_encodes R l = true -> print_text R l = print l.
Proof. unfold print_text. now intros ->. Qed.

Lemma print_text_false R l :
  stdout_encodes R l = false -> print_text R l = raise UnicodeEncodeError.
Proof. unfold print_text. now intros ->. Qed.

Lemma bind_print {A} s (k : unit -> M A) t r :
  k tt = (t, r) -> bind (print s) k = (Print s :: t, r).
Proof. intros H. unfold print, emit, bind. now rewrite H. Qed.

Lemma stops_print info s (k : unit -> M unit) :
  display_stops info (k tt) -> display_stops info (bind (print s) k).
Proof.
  intros (t & e & H & He). exists (Print s :: t), e.
  split; [ now apply bind_print | exact He ].
Qed.

(** ** Displaying a record that can be displayed *)

Section Presentable.
Variable R : runtime.
Variable info : value.
Hypothesis Hpresentable : presentable R info.

Lemma presentable_item k :
  In k record_names ->
  exists v,
    py_item info k = ret v /\ py_format R v = ret (field_text R info k).
Proof.
  intros Hin. destruct Hpresentable as (Hf & Hr & _).
  specialize (Hf k Hin). specialize (Hr k).
  unfold field_text, py_item.
  destruct info as [ | b | z | f | s | l | d ]; try (now exfalso; apply Hf).
  simpl in *. destruct (dict_get d k) as [v | ];
    [ | now exfalso; apply Hf ].
  destruct (Hr v Hin eq_refl) as (t & Ht).
  exists v. split; [ reflexivity | ]. rewrite Ht.
  now apply py_format_ok.
Qed.

Lemma presentable_truthy : py_truthy info = true.
Proof.
  destruct Hpresentable as (Hf & _ & _).
  specialize (Hf "location").
  destruct info as [ | b | z | f | s | l | [ | kv d ] ];
    try reflexivity; exfalso; apply Hf; simpl; tauto.
Qed.

Lemma presentable_print l :
  In l (text_lines R info) -> print_text R l = print l.
Proof.
  intros Hin. destruct Hpresentable as (_ & _ & He).
  apply print_text_true, He, Hin.
Qed.

(** Read and render the field [k] of the record in the goal. *)
Ltac take_field k :=
  let v := fresh "v" in
  let Hitem := fresh "Hitem" in
  let Hfmt := fresh "Hfmt" in
  destruct (presentable_item k) as (v & Hitem & Hfmt);
  [ simpl; tauto | rewrite Hitem; clear Hitem ].

Ltac is_text_line :=
  unfold text_lines, body_lines, temperature_line; cbn [In]; tauto.

(** The [print] calls of the display, in order. *)
Lemma display_presentable :
  display_weather R info = (map Print (printed R info), Ok tt).
Proof.
  unfold display_weather, printed, heading_lines, body_lines,
    temperature_line.
  rewrite presentable_truthy. cbn [negb map List.app].
  take_field "postal_code". take_field "location".
  take_field "temperature". take_field "temperature_f".
  take_field "condition". take_field "humidity".
  take_field "wind_speed". take_field "visibility".
  repeat first
    [ apply bind_print
    | rewrite bind_ret_l
    | match goal with
      | H : py_format R _ = ret _ |- _ => rewrite H
      end
    | rewrite presentable_print by is_text_line ].
  reflexivity.
Qed.

End Presentable.

(** ** Every way a display can end *)

(** Run the display in the goal up to the step that fails. *)
Ltac run_display :=
  repeat match goal with
         | H : dict_get _ _ = Some _ |- _ => rewrite (py_item_some _ _ _ H)
         | H : dict_get _ _ = None |- _ => rewrite (py_item_none _ _ H)
         end;
  repeat first
    [ rewrite bind_ret_l
    | rewrite bind_raise
    | apply stops_print
    | match goal with
      | H : py_str _ _ = Ok _ |- _ => rewrite (py_format_ok _ _ _ H)
      | H : py_str _ _ = Raise _ |- _ => rewrite (py_format_raise _ _ _ H)
      | H : stdout_encodes _ _ = true |- _ => rewrite (print_text_true _ _ H)
      | H : stdout_encodes _ _ = false |- _ =>
          rewrite (print_text_false _ _ H)
      end ].

(** The display stopped on the exception of the last case split. *)
Ltac stopped :=
  do 2 eexists; split; [ reflexivity | ];
  first
    [ left; split; [ reflexivity | ];
      let Hf := fresh "Hf" in
      intros Hf;
      match goal with
      | H : dict_get _ ?k = None |- _ =>
          apply (Hf k); [ simpl; tauto | exact H ]
      end
    | right; right; left; eapply py_str_raises; eassumption
    | right; right; right; reflexivity ].

Lemma display_outcomes R info :
  py_truthy info = true ->
  (presentable R info /\
   display_weather R info = (map Print (printed R info), Ok tt))
  \/ display_stops info (display_weather R info).
Proof.
  intros Ht.
  destruct info as [ | b | z | f | s | l | d ];
    try (right; unfold display_weather; rewrite Ht;
         do 2 eexists; split; [ reflexivity | ];
         right; left; split; [ reflexivity | intros [o Ho]; discriminate ]).
  assert (Hstop : forall m,
             display_stops (PyDict d) m ->
             display_weather R (PyDict d) = m ->
             (presentable R (PyDict d) /\
              display_weather R (PyDict d)
              = (map Print (printed R (PyDict d)), Ok tt))
             \/ display_stops (PyDict d) (display_weather R (PyDict d)))
    by (intros m Hm <-; now right).
  assert (Hrun : display_weather R (PyDict d) = display_weather R (PyDict d))
    by reflexivity.
  unfold display_weather at 2 in Hrun. rewrite Ht in Hrun. cbn [negb] in Hrun.
  destruct (dict_get d "location") as [v1 | ] eqn:Hk1;
    [ | eapply Hstop; [ | exact Hrun ]; run_display; stopped ].
  destruct (py_str R v1) as [t1 | e1] eqn:Hs1;
    [ | eapply Hstop; [ | exact Hrun ]; run_display; stopped ].
  destruct (stdout_encodes R ("Weather Information for " ++ t1)) eqn:He1;
    [ | eapply Hstop; [ | exact Hrun ]; run_display; stopped ].
  destruct (dict_get d "postal_code") as [v2 | ] eqn:Hk2;
    [ | eapply Hstop; [ | exact Hrun ]; run_display; stopped ].
  destruct (py_str R v2) as [t2 | e2] eqn:Hs2;
    [ | eapply Hstop; [ | exact Hrun ]; run_display; stopped ].
  destruct (stdout_encodes R ("Postal Code: " ++ t2)) eqn:He2;
    [ | eapply Hstop; [ | exact Hrun ]; run_display; stopped ].
  destruct (dict_get d "temperature") as [v3 | ] eqn:Hk3;
    [ | eapply Hstop; [ | exact Hrun ]; run_display; stopped ].
  destruct (py_str R v3) as [t3 | e3] eqn:Hs3;
    [ | eapply Hstop; [ | exact Hrun ]; run_display; stopped ].
  destruct (dict_get d "temperature_f") as [v4 | ] eqn:Hk4;
    [ | eapply Hstop; [ | exact Hrun ]; run_display; stopped ].
  destruct (py_str R v4) as [t4 | e4] eqn:Hs4;
    [ | eapply Hstop; [ | exact Hrun ]; run_display; stopped ].
  destruct (stdout_encodes R ("Temperature: " ++ t3 ++ degree ++ "C ("
                              ++ t4 ++ degree ++ "F)")) eqn:He3;
    [ | eapply Hstop; [ | exact Hrun ]; run_display; stopped ].
  destruct (dict_get d "condition") as [v5 | ] eqn:Hk5;
    [ | eapply Hstop; [ | exact Hrun ]; run_display; stopped ].
  destruct (py_str R v5) as [t5 | e5] eqn:Hs5;
    [ | eapply Hstop; [ | exact Hrun ]; run_display; stopped ].
  destruct (stdout_encodes R ("Condition: " ++ t5)) eqn:He5;
    [ | eapply Hstop; [ | exact Hrun ]; run_display; stopped ].
  destruct (dict_get d "humidity") as [v6 | ] eqn:Hk6;
    [ | eapply Hstop; [ | exact Hrun ]; run_display; stopped ].
  destruct (py_str R v6) as [t6 | e6] eqn:Hs6;
    [ | eapply Hstop; [ | exact Hrun ]; run_display; stopped ].
  destruct (stdout_encodes R ("Humidity: " ++ t6 ++ "%")) eqn:He6;
    [ | eapply Hstop; [ | exact Hrun ]; run_display; stopped ].
  destruct (dict_get d "wind_speed") as [v7 | ] eqn:Hk7;
    [ | eapply Hstop; [ | exact Hrun ]; run_display; stopped ].
  destruct (py_str R v7) as [t7 | e7] eqn:Hs7;
    [ | eapply Hstop; [ | exact Hrun ]; run_display; stopped ].
  destruct (stdout_encodes R ("Wind Speed: " ++ t7 ++ " km/h")) eqn:He7;
    [ | eapply Hstop; [ | exact Hrun ]; run_display; stopped ].
  destruct (dict_get d "visibility") as [v8 | ] eqn:Hk8;
    [ | eapply Hstop; [ | exact Hrun ]; run_display; stopped ].
  destruct (py_str R v8) as [t8 | e8] eqn:Hs8;
    [ | eapply Hstop; [ | exact Hrun ]; run_display; stopped ].
  destruct (stdout_encodes R ("Visibility: " ++ t8 ++ " km")) eqn:He8;
    [ | eapply Hstop; [ | exact Hrun ]; run_display; stopped ].
  clear Hstop Hrun.
  assert (Hp : presentable R (PyDict d)).
  { split; [ | split ].
    - intros k Hin. simpl in Hin. cbn [record_field].
      repeat destruct Hin as [<- | Hin]; try contradiction; congruence.
    - intros k v Hin Hv. simpl in Hin. cbn [record_field] in Hv.
      repeat destruct Hin as [<- | Hin]; try contradiction;
        eexists; match goal with
                 | H : dict_get d ?k = Some ?x |- _ =>
                     rewrite H in Hv; injection Hv as <-; eassumption
                 end.
    - intros l Hin.
      unfold text_lines, body_lines, temperature_line, field_text in Hin.
      cbn [record_field] in Hin.
      rewrite Hk1, Hk2, Hk3, Hk4, Hk5, Hk6, Hk7, Hk8 in Hin.
      rewrite Hs1, Hs2, Hs3, Hs4, Hs5, Hs6, Hs7, Hs8 in Hin.
      cbn [In] in Hin.
      repeat destruct Hin as [<- | Hin]; try contradiction; assumption. }
  left. split; [ exact Hp | now apply display_presentable ].
Qed.

(** ** The lines of a display *)

Section Display.
Variable R : runtime.
Variable info : value.
Hypothesis Hprintable : printable R info.

Lemma printable_one_line k :
  In k record_names -> one_line (field_text R info k) = true.
Proof. intros Hin. destruct Hprintable as [_ H]. now apply H. Qed.

(** The [print] calls of a display, in order. *)
Lemma display_trace :
  display_weather R info = (map Print (printed R info), Ok tt).
Proof. destruct Hprintable as [Hp _]. now apply display_presentable. Qed.

(** The lines of a display: a blank line, the heading between two
    borders, the data, the closing border and a blank line. *)
Lemma display_lines_printable :
  display_lines R info =
  List.app ("" :: border :: heading_lines R info)
    (List.app (border :: body_lines R info) [border; ""; ""]).
Proof.
  unfold display_lines. rewrite display_trace.
  unfold trace, printed, heading_lines, body_lines, temperature_line.
  cbn [fst List.app map stdout].
  change ((newline ++ border) ++ ?x) with (String newline_char (border ++ x)).
  rewrite split_lines_newline.
  rewrite (string_app_assoc border newline).
  change (newline ++ ?x) with (String newline_char x).
  repeat (rewrite split_lines_line;
          [ | rewrite ?one_line_app, ?one_line_border, ?one_line_strftime,
                ?printable_one_line by (simpl; tauto);
              reflexivity ]).
  reflexivity.
Qed.

End Display.

Lemma is_border_border : is_border border = true.
Proof. reflexivity. Qed.

Lemma is_border_empty : is_border "" = false.
Proof. reflexivity. Qed.

(** ** The display claim *)

(** C5, as stated, fails: the display of the sample record has five
    data lines, not six (and eight lines of text in all between the
    borders, heading included). *)
Lemma sample_display_five_data_lines :
  List.length (data_lines sample_display) = 5 /\
  List.length (data_lines sample_display) <> 6 /\
  List.length
    (filter (fun l => negb (is_border l || String.eqb l "")) sample_display)
  = 8.
Proof. vm_compute. repeat split. discriminate. Qed.

(** A line break inside a field adds a line: no count of data lines
    holds for every record. *)
Lemma line_break_adds_data_line :
  List.length (data_lines (display_lines sample_ok_runtime two_line_record))
  = 6.
Proof. reflexivity. Qed.

(** An [int] beyond the digit limit stops the display with [ValueError]
    when its line is put together: the heading is out, the data are
    not. *)
Lemma huge_int_stops_display :
  display_weather sample_ok_runtime huge_int_record =
  (map Print
     [ newline ++ border;
       "Weather Information for New York";
       "Postal Code: 10001";
       "Date: 2024-02-14 09:05:30";
       border ],
   Raise ValueError).
Proof. vm_compute. reflexivity. Qed.

(** A lone surrogate stops the display with [UnicodeEncodeError] at the
    line it is on: only the first border is out. *)
Lemma lone_surrogate_stops_display :
  display_weather sample_ok_runtime surrogate_record =
  ([Print (newline ++ border)], Raise UnicodeEncodeError).
Proof. vm_compute. reflexivity. Qed.

(** C5, amended: for every present record whose eight fields can be
    rendered (no [int] beyond the digit limit), each without a line
    break, and whose lines standard output can encode, the display
    completes and is, line by line: a blank line, a border of 50 "=",
    the three heading lines (location, postal code, date), a second
    border, exactly five data lines (the temperature in Celsius and
    Fahrenheit together on the first, then the condition, the humidity,
    the wind speed and the visibility), a third border and a blank
    line.  So there are three border lines and five data lines. *)
Theorem display_borders_and_data_lines R info :
  printable R info ->
  outcome (display_weather R info) = Ok tt /\
  display_lines R info =
  [ ""; border;
    "Weather Information for " ++ field_text R info "location";
    "Postal Code: " ++ field_text R info "postal_code";
    "Date: " ++ strftime (year_padded R) (clock R);
    border;
    "Temperature: " ++ field_text R info "temperature" ++ degree ++ "C ("
    ++ field_text R info "temperature_f" ++ degree ++ "F)";
    "Condition: " ++ field_text R info "condition";
    "Humidity: " ++ field_text R info "humidity" ++ "%";
    "Wind Speed: " ++ field_text R info "wind_speed" ++ " km/h";
    "Visibility: " ++ field_text R info "visibility" ++ " km";
    border; ""; "" ] /\
  List.length (filter is_border (display_lines R info)) = 3 /\
  data_lines (display_lines R info) =
  [ "Temperature: " ++ field_text R info "temperature" ++ degree ++ "C ("
    ++ field_text R info "temperature_f" ++ degree ++ "F)";
    "Condition: " ++ field_text R info "condition";
    "Humidity: " ++ field_text R info "humidity" ++ "%";
    "Wind Speed: " ++ field_text R info "wind_speed" ++ " km/h";
    "Visibility: " ++ field_text R info "visibility" ++ " km" ].
Proof.
  intros Hp. split; [ now rewrite (display_trace R info Hp) | ].
  rewrite (display_lines_printable R info Hp).
  unfold data_lines, heading_lines, body_lines, temperature_line.
  split; [ reflexivity | ]. split.
  - cbn [List.app filter].
    rewrite !is_border_border, !is_border_empty.
    rewrite !one_line_not_border_prefix by reflexivity.
    reflexivity.
  - cbn [List.app after_border].
    rewrite is_border_empty, is_border_border.
    cbn [after_border].
    rewrite !one_line_not_border_prefix by reflexivity.
    rewrite is_border_border.
    cbn [until_border].
    rewrite !one_line_not_border_prefix by reflexivity.
    rewrite is_border_border.
    reflexivity.
Qed.

Lemma presentable_sample : presentable sample_ok_runtime sample_record.
Proof.
  split; [ | split ].
  - intros k Hin. simpl in Hin.
    repeat destruct Hin as [<- | Hin]; try contradiction; discriminate.
  - intros k v Hin Hv. simpl in Hin.
    repeat destruct Hin as [<- | Hin]; try contradiction;
      injection Hv as <-; eexists; reflexivity.
  - intros l Hin. vm_compute in Hin.
    repeat destruct Hin as [<- | Hin]; try contradiction; reflexivity.
Qed.

Lemma printable_sample :
  printable sample_ok_runtime sample_record.
Proof.
  split; [ exact presentable_sample | ].
  intros k Hin. simpl in Hin.
  repeat destruct Hin as [<- | Hin]; try contradiction; reflexivity.
Qed.

Lemma display_borders_and_data_lines_witness :
  outcome (display_weather sample_ok_runtime sample_record) = Ok tt /\
  sample_display =
  [ ""; border;
    "Weather Information for New York";
    "Postal Code: 10001";
    "Date: 2024-02-14 09:05:30";
    border;
    "Temperature: " ++ "20" ++ degree ++ "C (" ++ "68" ++ degree ++ "F)";
    "Condition: Sunny";
    "Humidity: 50%";
    "Wind Speed: 10 km/h";
    "Visibility: 10 km";
    border; ""; "" ] /\
  List.length (filter is_border sample_display) = 3 /\
  data_lines sample_display =
  [ "Temperature: " ++ "20" ++ degree ++ "C (" ++ "68" ++ degree ++ "F)";
    "Condition: Sunny";
    "Humidity: 50%";
    "Wind Speed: 10 km/h";
    "Visibility: 10 km" ].
Proof.
  apply (display_borders_and_data_lines sample_ok_runtime sample_record).
  exact printable_sample.
Defined.

(** An absent record is not displayed. *)
Lemma display_absent R : display_weather R PyNone = ret tt.
Proof. reflexivity. Qed.

(** ** The fetch and command-line claims *)

Lemma get_weather_response R postal_code resp :
  requests_get R (weather_url postal_code) [("User-Agent", user_agent)] 10
  = Ok resp ->
  get_weather R postal_code =
  try_except
    (emit (HttpGet (weather_url postal_code) [("User-Agent", user_agent)] 10) ;;;
     if Z.eqb (status_code resp) 200 then
       data <- lift (response_json R resp) ;;
       parse_weather_data data (PyStr postal_code)
     else
       print (status_message (status_code resp)) ;;; ret PyNone)
    get_weather_handler.
Proof.
  intros H. unfold get_weather, http_get. rewrite H.
  rewrite bind_assoc. f_equal.
  apply bind_ext. intros _. exact (bind_ret_l resp _).
Qed.

(** When [Response.json] raises, the first [except] clause that matches
    the exception decides the report. *)
Lemma get_weather_json_raises R postal_code resp e :
  requests_get R (weather_url postal_code) [("User-Agent", user_agent)] 10
  = Ok resp ->
  status_code resp = 200%Z ->
  response_json R resp = Raise e ->
  is_JSONDecodeError e = true ->
  get_weather R postal_code =
  ([ HttpGet (weather_url postal_code) [("User-Agent", user_agent)] 10;
     Print (if is_RequestException e then transport_message e
            else decode_message) ],
   Ok PyNone).
Proof.
  intros Hget Hs Hj He. rewrite (get_weather_response _ _ _ Hget), Hs, Hj.
  unfold try_except, get_weather_handler. simpl.
  rewrite He. now destruct (is_RequestException e).
Qed.

Lemma int_str_contained (z : Z) : contains (status_message z) (int_str z).
Proof.
  exists "Error: Failed to retrieve weather data (Status: ", ")".
  reflexivity.
Qed.

(** C6: when the service answers with a status other than 200,
    [get_weather] returns no record and reports a message that contains
    the status code, and the process prints the failure line and exits
    with status 1. *)
Theorem non_200_status_reported R prog postal_code resp :
  requests_get R (weather_url postal_code) [("User-Agent", user_agent)] 10
  = Ok resp ->
  status_code resp <> 200%Z ->
  get_weather R postal_code =
  ([ HttpGet (weather_url postal_code) [("User-Agent", user_agent)] 10;
     Print (status_message (status_code resp)) ],
   Ok PyNone) /\
  contains (status_message (status_code resp)) (int_str (status_code resp)) /\
  run R [prog; postal_code] =
  ([ Print ("Retrieving weather information for postal code: "
            ++ postal_code ++ "...");
     HttpGet (weather_url postal_code) [("User-Agent", user_agent)] 10;
     Print (status_message (status_code resp));
     Print failed_message ],
   1%Z).
Proof.
  intros Hget Hs.
  assert (Hrun : get_weather R postal_code =
                 ([ HttpGet (weather_url postal_code)
                      [("User-Agent", user_agent)] 10;
                    Print (status_message (status_code resp)) ],
                  Ok PyNone)).
  { rewrite (get_weather_response _ _ _ Hget).
    apply Z.eqb_neq in Hs. now rewrite Hs. }
  split; [ exact Hrun | ]. split; [ apply int_str_contained | ].
  unfold run, main. cbn [List.length Nat.eqb negb nth].
  rewrite bind_ret_l. unfold print at 1, emit. cbn [bind].
  rewrite Hrun. reflexivity.
Qed.

Lemma non_200_status_reported_witness :
  get_weather not_found_runtime "10001" =
  ([ HttpGet (weather_url "10001") [("User-Agent", user_agent)] 10;
     Print "Error: Failed to retrieve weather data (Status: 404)" ],
   Ok PyNone) /\
  contains "Error: Failed to retrieve weather data (Status: 404)" "404" /\
  run not_found_runtime ["weather.py"; "10001"] =
  ([ Print "Retrieving weather information for postal code: 10001...";
     HttpGet (weather_url "10001") [("User-Agent", user_agent)] 10;
     Print "Error: Failed to retrieve weather data (Status: 404)";
     Print failed_message ],
   1%Z).
Proof.
  apply (non_200_status_reported not_found_runtime "weather.py" "10001"
           {| status_code := 404; text := "Not Found" |}).
  - reflexivity.
  - simpl. lia.
Defined.

(** With the decoder's own [json.JSONDecodeError] the second clause
    reports the decode error. *)
Lemma plain_decode_error_reported :
  get_weather plain_decoder_runtime "10001" =
  ([ HttpGet (weather_url "10001") [("User-Agent", user_agent)] 10;
     Print decode_message ],
   Ok PyNone).
Proof. reflexivity. Qed.

(** C7 fails on the code: the exception [Response.json] raises for a
    body that is not JSON is a [RequestException] as well, so the first
    [except] clause takes it and the report is the transport-error
    message; the decode-error message is never printed.  The process
    still exits with status 1. *)
Theorem invalid_json_reported_as_transport_error :
  get_weather invalid_json_runtime "10001" =
  ([ HttpGet (weather_url "10001") [("User-Agent", user_agent)] 10;
     Print "Error connecting to weather service: Expecting value: line 1 column 1 (char 0)" ],
   Ok PyNone) /\
  ~ In (Print decode_message)
       (fst (run invalid_json_runtime ["weather.py"; "10001"])) /\
  snd (run invalid_json_runtime ["weather.py"; "10001"]) = 1%Z.
Proof.
  split; [ reflexivity | ]. split; [ | reflexivity ].
  vm_compute. intros H.
  repeat destruct H as [H | H]; try discriminate; contradiction.
Qed.

(** C8: with an argument count other than one ([sys.argv] then has a
    length other than 2) the script prints the two usage lines, exits
    with status 1, and sends no request. *)
Theorem wrong_argument_count_usage R argv :
  List.length argv <> 2 ->
  run R argv = (usage_lines, 1%Z) /\
  stdout (fst (run R argv)) =
  "Usage: python weather.py <postal_code>" ++ newline
  ++ "Example: python weather.py 10001" ++ newline /\
  existsb is_request (fst (run R argv)) = false.
Proof.
  intros H. apply Nat.eqb_neq in H.
  assert (Hrun : run R argv = (usage_lines, 1%Z))
    by (unfold run, main; rewrite H; reflexivity).
  rewrite Hrun. repeat split.
Qed.

Lemma wrong_argument_count_usage_witness :
  (run sample_ok_runtime ["weather.py"] = (usage_lines, 1%Z) /\
   stdout (fst (run sample_ok_runtime ["weather.py"])) =
   "Usage: python weather.py <postal_code>" ++ newline
   ++ "Example: python weather.py 10001" ++ newline /\
   existsb is_request (fst (run sample_ok_runtime ["weather.py"])) = false) /\
  (run sample_ok_runtime ["weather.py"; "10001"; "90210"]
   = (usage_lines, 1%Z) /\
   stdout (fst (run sample_ok_runtime ["weather.py"; "10001"; "90210"])) =
   "Usage: python weather.py <postal_code>" ++ newline
   ++ "Example: python weather.py 10001" ++ newline /\
   existsb is_request
     (fst (run sample_ok_runtime ["weather.py"; "10001"; "90210"])) = false).
Proof.
  split.
  - apply (wrong_argument_count_usage sample_ok_runtime ["weather.py"]).
    simpl. lia.
  - apply (wrong_argument_count_usage sample_ok_runtime
             ["weather.py"; "10001"; "90210"]).
    simpl. lia.
Defined.

(** * Beyond the claims *)

(** ** The fetch, case by case *)

Lemma get_weather_raised R postal_code e :
  answer R postal_code = Raise e ->
  get_weather R postal_code =
  try_except ([the_request postal_code], Raise e) get_weather_handler.
Proof.
  unfold answer. intros H. unfold get_weather, http_get. now rewrite H.
Qed.

Lemma handler_handled e :
  handled e = true ->
  get_weather_handler e = Some (print (handler_message e) ;;; ret PyNone).
Proof.
  unfold handled, get_weather_handler, handler_message.
  destruct (is_RequestException e); simpl; [ reflexivity | ].
  now intros ->.
Qed.

Lemma handler_unhandled e :
  handled e = false -> get_weather_handler e = None.
Proof.
  unfold handled, get_weather_handler.
  destruct (is_RequestException e); simpl; [ discriminate | ].
  now intros ->.
Qed.

Lemma parse_raises_attribute_error data postal_code t e :
  parse_weather_data data postal_code = (t, Raise e) ->
  t = [] /\ e = AttributeError.
Proof.
  intros H. pose proof (parse_cases data postal_code) as Hc.
  rewrite H in Hc. inversion Hc. now split.
Qed.

Lemma try_except_unhandled {A} (t : list event) (e : exn) h :
  h e = None -> @try_except A (t, Raise e) h = (t, Raise e).
Proof. intros H. unfold try_except. now rewrite H. Qed.

(** Every fetch ends in one of the four ways. *)
Lemma get_weather_cases R postal_code :
  fetch_outcome R postal_code (get_weather R postal_code).
Proof.
  destruct (answer R postal_code) as [resp | e] eqn:Hanswer.
  - rewrite (get_weather_response R postal_code resp Hanswer).
    destruct (Z.eqb_spec (status_code resp) 200) as [Hs | Hs].
    + destruct (response_json R resp) as [data | e] eqn:Hjson.
      * assert (Hserved : served R postal_code data) by (exists resp; auto).
        destruct (parse_weather_data data (PyStr postal_code))
          as [t [r | e]] eqn:Hparse.
        -- pose proof (fetch_parsed R postal_code data Hserved) as Hf.
           rewrite Hparse in Hf.
           unfold lift, emit, bind. rewrite Hparse. exact Hf.
        -- destruct (parse_raises_attribute_error _ _ _ _ Hparse) as [-> ->].
           pose proof (fetch_parsed R postal_code data Hserved) as Hf.
           rewrite Hparse in Hf.
           unfold lift, emit, bind. rewrite Hparse. exact Hf.
      * assert (Hraised : library_raises R postal_code e)
          by (right; exists resp; auto).
        destruct (handled e) eqn:Hh.
        -- unfold lift, emit, bind, try_except.
           rewrite (handler_handled e Hh).
           now apply fetch_handled.
        -- unfold lift, emit, bind, try_except.
           rewrite (handler_unhandled e Hh).
           now apply fetch_unhandled.
    + now apply fetch_status.
  - rewrite (get_weather_raised R postal_code e Hanswer).
    assert (Hraised : library_raises R postal_code e) by now left.
    destruct (handled e) eqn:Hh.
    + unfold try_except. rewrite (handler_handled e Hh).
      now apply fetch_handled.
    + rewrite (try_except_unhandled _ _ _ (handler_unhandled e Hh)).
      now apply fetch_unhandled.
Qed.

(** ** Requests in a trace *)


Lemma prints_only_raise {A} (e : exn) : prints_only (@raise A e).
Proof. reflexivity. Qed.









(** ** The record of the extraction has the eight fields *)

Lemma spec_record_has_fields data postal_code :
  has_fields (spec_record data postal_code).
Proof.
  intros k Hin. simpl in Hin.
  repeat destruct Hin as [<- | Hin]; try contradiction; discriminate.
Qed.

(** The display of such a record ends in one of three ways. *)
Lemma display_spec_record R data postal_code :
  let r := spec_record data postal_code in
  (presentable R r /\
   display_weather R r = (map Print (printed R r), Ok tt))
  \/
  (~ presentable R r /\
   exists t e,
     display_weather R r = (t, Raise e) /\
     (e = ValueError \/ e = UnicodeEncodeError)).
Proof.
  intros r.
  destruct (display_outcomes R r eq_refl)
    as [Hp | (t & e & Heq & He)]; [ now left | right ].
  split.
  - intros Hp. rewrite (display_presentable R r Hp) in Heq. discriminate.
  - exists t, e. split; [ exact Heq | ].
    destruct He as [[_ Hn] | [[_ Hn] | He]]; [ | | exact He ].
    + exfalso. apply Hn, spec_record_has_fields.
    + exfalso. apply Hn. eexists. reflexivity.
Qed.

(** ** The driver, by the outcome of the fetch *)

Lemma main_two_args R prog postal_code :
  main R [prog; postal_code] =
  (print (retrieving_message postal_code) ;;;
   weather_info <- get_weather R postal_code ;;
   if py_truthy weather_info then display_weather R weather_info
   else print failed_message ;;; sys_exit 1).
Proof.
  unfold main. cbn [List.length Nat.eqb negb nth].
  now rewrite bind_ret_l.
Qed.

Lemma run_wrong_count R argv :
  List.length argv <> 2 -> run R argv = (usage_lines, 1%Z).
Proof.
  intros H. apply Nat.eqb_neq in H. unfold run, main. now rewrite H.
Qed.

Lemma run_no_record R prog postal_code t :
  get_weather R postal_code = (t, Ok PyNone) ->
  run R [prog; postal_code] =
  (Print (retrieving_message postal_code) :: List.app t [Print failed_message],
   1%Z).
Proof.
  intros H. unfold run. rewrite main_two_args, H. reflexivity.
Qed.

Lemma run_raised R prog postal_code t e :
  get_weather R postal_code = (t, Raise e) ->
  run R [prog; postal_code] =
  (Print (retrieving_message postal_code) :: t, exit_status (Raise e)).
Proof.
  intros H. unfold run. rewrite main_two_args, H. reflexivity.
Qed.

Lemma run_record R prog postal_code t r :
  get_weather R postal_code = (t, Ok r) ->
  presentable R r ->
  run R [prog; postal_code] =
  (Print (retrieving_message postal_code)
     :: List.app t (map Print (printed R r)),
   0%Z).
Proof.
  intros H Hr. unfold run. rewrite main_two_args, H.
  unfold print, emit, bind.
  rewrite (presentable_truthy R r Hr), (display_presentable R r Hr).
  reflexivity.
Qed.

Lemma run_display_stopped R prog postal_code t r t' e :
  get_weather R postal_code = (t, Ok r) ->
  py_truthy r = true ->
  display_weather R r = (t', Raise e) ->
  run R [prog; postal_code] =
  (Print (retrieving_message postal_code) :: List.app t t',
   exit_status (Raise e)).
Proof.
  intros H Hr Hd. unfold run. rewrite main_two_args, H.
  unfold print, emit, bind. rewrite Hr, Hd. reflexivity.
Qed.

Lemma get_weather_served R postal_code data :
  served R postal_code data ->
  get_weather R postal_code =
  (the_request postal_code
     :: trace (parse_weather_data data (PyStr postal_code)),
   outcome (parse_weather_data data (PyStr postal_code))).
Proof.
  intros (resp & Hanswer & Hs & Hjson).
  rewrite (get_weather_response R postal_code resp Hanswer), Hs, Hjson.
  cbn [Z.eqb Pos.eqb]. unfold lift, emit, bind.
  destruct (parse_cases data (PyStr postal_code)); reflexivity.
Qed.

(** ** Properties of the fetch *)

(** X1: when [requests.get] raises a [RequestException] (connection
    refused, DNS failure, timeout), [get_weather] returns no record
    after printing the transport-error line with the cause, and the
    process prints the failure line and exits with status 1. *)
Theorem transport_error_reported R prog postal_code e :
  answer R postal_code = Raise e ->
  is_RequestException e = true ->
  get_weather R postal_code =
  ([ the_request postal_code; Print (transport_message e) ], Ok PyNone) /\
  run R [prog; postal_code] =
  ([ Print (retrieving_message postal_code);
     the_request postal_code;
     Print ("Error connecting to weather service: " ++ exn_str e);
     Print failed_message ],
   1%Z).
Proof.
  intros Hanswer He.
  assert (Hfetch : get_weather R postal_code =
                   ([ the_request postal_code; Print (transport_message e) ],
                    Ok PyNone)).
  { rewrite (get_weather_raised R postal_code e Hanswer).
    unfold try_except, get_weather_handler. now rewrite He. }
  split; [ exact Hfetch | ].
  now rewrite (run_no_record R prog postal_code _ Hfetch).
Qed.

Lemma transport_error_reported_witness :
  get_weather offline_runtime "10001" =
  ([ the_request "10001";
     Print "Error connecting to weather service: Connection refused" ],
   Ok PyNone) /\
  run offline_runtime ["weather.py"; "10001"] =
  ([ Print "Retrieving weather information for postal code: 10001...";
     the_request "10001";
     Print "Error connecting to weather service: Connection refused";
     Print failed_message ],
   1%Z).
Proof.
  apply (transport_error_reported offline_runtime "weather.py" "10001"
           (LibError requests_ConnectionError "Connection refused"));
    reflexivity.
Defined.

(** X2: on an answer with status 200 whose body decodes, [get_weather]
    ends exactly as [parse_weather_data] does on the decoded document:
    the same result or the same exception, and the same printed text. *)
Theorem fetch_ends_as_extraction R postal_code data :
  served R postal_code data ->
  outcome (get_weather R postal_code) =
  outcome (parse_weather_data data (PyStr postal_code)) /\
  stdout (trace (get_weather R postal_code)) =
  stdout (trace (parse_weather_data data (PyStr postal_code))).
Proof.
  intros Hserved. now rewrite (get_weather_served R postal_code data Hserved).
Qed.

Lemma served_sample : served sample_ok_runtime "10001" sample_document.
Proof. eexists. repeat split. Qed.

Lemma fetch_ends_as_extraction_witness :
  outcome (get_weather sample_ok_runtime "10001") =
  outcome (parse_weather_data sample_document (PyStr "10001")) /\
  stdout (trace (get_weather sample_ok_runtime "10001")) =
  stdout (trace (parse_weather_data sample_document (PyStr "10001"))).
Proof.
  apply (fetch_ends_as_extraction sample_ok_runtime "10001" sample_document).
  exact served_sample.
Defined.

(** X3: an exception that leaves [get_weather] is never one its
    [except] clauses name: it is either what a library raised and
    neither clause takes, or the [AttributeError] of the extraction. *)
Theorem fetch_escapes R postal_code e :
  outcome (get_weather R postal_code) = Raise e ->
  is_RequestException e = false /\ is_JSONDecodeError e = false /\
  (library_raises R postal_code e \/ e = AttributeError).
Proof.
  intros H.
  destruct (get_weather_cases R postal_code)
    as [e' Hr Hh | e' Hr Hh | resp Ha Hs | data Hserved]; try discriminate.
  - injection H as ->. apply orb_false_iff in Hh as [H1 H2]. auto.
  - unfold outcome in H. simpl in H.
    destruct (parse_weather_data data (PyStr postal_code)) as [t r] eqn:Hp.
    simpl in H. subst r.
    destruct (parse_raises_attribute_error _ _ _ _ Hp) as [_ ->]. auto.
Qed.

Lemma fetch_escapes_witness :
  is_RequestException AttributeError = false /\
  is_JSONDecodeError AttributeError = false /\
  (library_raises array_runtime "10001" AttributeError \/
   AttributeError = AttributeError).
Proof.
  apply (fetch_escapes array_runtime "10001" AttributeError). reflexivity.
Defined.

(** ** Properties of the extraction *)

(** X4: whatever the document, the extraction ends in one of three
    ways: the record of a well-shaped document, with nothing printed; no
    record and the one report line, for a document with a broken
    container; or [AttributeError] with nothing printed, for a document
    in which a key is looked up in something that is not an object.
    [KeyError], [IndexError] and [TypeError] never leave it. *)
Theorem extraction_ends_three_ways data postal_code :
  (well_shaped data /\
   parse_weather_data data postal_code = ret (spec_record data postal_code))
  \/
  (broken_container data /\
   parse_weather_data data postal_code = parse_failure)
  \/
  (~ lookups_on_objects data /\
   parse_weather_data data postal_code = raise AttributeError).
Proof.
  destruct (parse_cases data postal_code); auto.
Qed.

(** X5: the extraction reads only the keys current_condition and
    nearest_area of the document, and only the first element of their
    arrays: two documents that agree there are extracted alike. *)
Theorem extraction_reads_first_elements d d' postal_code :
  same_first (dict_get d "current_condition")
             (dict_get d' "current_condition") ->
  same_first (dict_get d "nearest_area") (dict_get d' "nearest_area") ->
  parse_weather_data (PyDict d) postal_code =
  parse_weather_data (PyDict d') postal_code.
Proof.
  assert (Hfirst : forall k,
             same_first (dict_get d k) (dict_get d' k) ->
             first_of (PyDict d) k = first_of (PyDict d') k).
  { intros k [H | (x & l & l' & H & H')]; unfold first_of, py_get;
      rewrite !bind_ret_l.
    - now rewrite H.
    - now rewrite H, H'. }
  intros Hcc Hna. unfold parse_weather_data. f_equal.
  rewrite !parse_body_steps, (Hfirst _ Hcc).
  apply bind_ext. intros current. now rewrite (Hfirst _ Hna).
Qed.

Lemma extraction_reads_first_elements_witness :
  parse_weather_data long_document (PyStr "10001") =
  parse_weather_data sample_document (PyStr "10001").
Proof.
  apply (extraction_reads_first_elements
           [ ("weather", PyList [PyDict [("date", PyStr "2024-02-14")]]);
             ("current_condition",
              PyList [PyDict sample_current; PyDict [("temp_C", PyStr "99")]]);
             ("nearest_area",
              PyList [PyDict [("areaName",
                               PyList [PyDict [("value", PyStr "New York")]])];
                      PyDict []]) ]
           [ ("current_condition", PyList [PyDict sample_current]);
             ("nearest_area", sample_area) ]
           (PyStr "10001")).
  - right. do 3 eexists. split; reflexivity.
  - right. do 3 eexists. split; reflexivity.
Defined.

(** ** Properties of the display *)

(** X6: the display of a record the extraction returns never stops on
    a missing field.  It completes, by eleven [print] calls, exactly
    when every field can be rendered and standard output can encode the
    lines; otherwise it raises [ValueError] (an [int] beyond the digit
    limit) or [UnicodeEncodeError]. *)
Theorem extracted_record_displayed R data postal_code t r :
  parse_weather_data data postal_code = (t, Ok r) ->
  r <> PyNone ->
  (presentable R r /\
   display_weather R r = (map Print (printed R r), Ok tt) /\
   List.length (printed R r) = 11)
  \/
  (~ presentable R r /\
   (outcome (display_weather R r) = Raise ValueError \/
    outcome (display_weather R r) = Raise UnicodeEncodeError)).
Proof.
  intros Hrun Hr.
  pose proof (parse_cases data postal_code) as Hc. rewrite Hrun in Hc.
  inversion Hc as [ Hw Heq | Hb Heq | Hn Heq ]; [ | congruence ].
  destruct (display_spec_record R data postal_code)
    as [[Hp Hd] | [Hp (t' & e & Hd & He)]].
  - left. split; [ exact Hp | ]. split; [ exact Hd | reflexivity ].
  - right. split; [ exact Hp | ]. rewrite Hd.
    destruct He as [-> | ->]; [ now left | now right ].
Qed.

Lemma presentable_no_humidity :
  presentable sample_ok_runtime no_humidity_record.
Proof.
  split; [ | split ].
  - intros k Hin. simpl in Hin.
    repeat destruct Hin as [<- | Hin]; try contradiction; discriminate.
  - intros k v Hin Hv. simpl in Hin.
    repeat destruct Hin as [<- | Hin]; try contradiction;
      injection Hv as <-; eexists; reflexivity.
  - intros l Hin. vm_compute in Hin.
    repeat destruct Hin as [<- | Hin]; try contradiction; reflexivity.
Qed.

Lemma extracted_record_displayed_witness :
  (presentable sample_ok_runtime no_humidity_record /\
   display_weather sample_ok_runtime no_humidity_record =
   (map Print (printed sample_ok_runtime no_humidity_record), Ok tt) /\
   List.length (printed sample_ok_runtime no_humidity_record) = 11)
  \/
  (~ presentable sample_ok_runtime no_humidity_record /\
   (outcome (display_weather sample_ok_runtime no_humidity_record)
    = Raise ValueError \/
    outcome (display_weather sample_ok_runtime no_humidity_record)
    = Raise UnicodeEncodeError)).
Proof.
  apply (extracted_record_displayed sample_ok_runtime no_humidity_document
           (PyStr "10001") [] no_humidity_record).
  - reflexivity.
  - discriminate.
Defined.



(** ** Properties of a whole run *)

Lemma served_functional R postal_code data data' :
  served R postal_code data -> served R postal_code data' -> data = data'.
Proof.
  intros (resp & Ha & _ & Hj) (resp' & Ha' & _ & Hj'). congruence.
Qed.

Lemma served_not_raised R postal_code data e :
  served R postal_code data -> ~ library_raises R postal_code e.
Proof.
  intros (resp & Ha & _ & Hj) [Hr | (resp' & Ha' & _ & Hj')]; congruence.
Qed.

Lemma lib_error_handled c m : handled (LibError c m) = true.
Proof. destruct c; reflexivity. Qed.

Lemma library_raises_lib_error R postal_code e :
  library_errors_only R -> library_raises R postal_code e ->
  exists c m, e = LibError c m.
Proof.
  intros [Hget Hjson] [Hr | (resp & _ & _ & Hj)].
  - exact (Hget _ _ _ _ Hr).
  - exact (Hjson _ _ Hj).
Qed.



(** With one argument, the run ends with status 0 when a well-shaped
    document was served and its record could be displayed, and with
    status 1 otherwise. *)
Lemma run_status R prog postal_code :
  library_errors_only R ->
  (exists data,
      served R postal_code data /\ well_shaped data /\
      presentable R (spec_record data (PyStr postal_code)) /\
      snd (run R [prog; postal_code]) = 0%Z)
  \/
  ((forall data,
       served R postal_code data -> well_shaped data ->
       ~ presentable R (spec_record data (PyStr postal_code))) /\
   snd (run R [prog; postal_code]) = 1%Z).
Proof.
  intros Hlib.
  pose proof (get_weather_cases R postal_code) as Hc.
  inversion Hc as [ e Hr Hh Heq | e Hr Hh Heq | resp Ha Hs Heq
                  | data Hserved Heq ]; symmetry in Heq.
  - right. split.
    + intros data Hserved _ _. exact (served_not_raised _ _ _ _ Hserved Hr).
    + now rewrite (run_no_record R prog postal_code _ Heq).
  - exfalso. destruct (library_raises_lib_error _ _ _ Hlib Hr) as (c & m & ->).
    rewrite lib_error_handled in Hh. discriminate.
  - right. split.
    + intros data (resp' & Ha' & Hs' & _) _ _. congruence.
    + now rewrite (run_no_record R prog postal_code _ Heq).
  - destruct (parse_cases data (PyStr postal_code)) as [Hw | Hb | Hn].
    + destruct (display_spec_record R data (PyStr postal_code))
        as [[Hp Hd] | [Hp (t' & e & Hd & He)]].
      * left. exists data.
        split; [ exact Hserved | ]. split; [ exact Hw | ].
        split; [ exact Hp | ].
        now rewrite (run_record R prog postal_code _ _ Heq Hp).
      * right. split.
        -- intros data' Hserved' _.
           now rewrite (served_functional _ _ _ _ Hserved' Hserved).
        -- rewrite (run_display_stopped R prog postal_code _ _ _ _
                      Heq eq_refl Hd).
           destruct He as [-> | ->]; reflexivity.
    + right. split.
      * intros data' Hserved' Hw _.
        rewrite (served_functional _ _ _ _ Hserved' Hserved) in Hw.
        exact (well_shaped_not_broken _ Hw Hb).
      * now rewrite (run_no_record R prog postal_code _ Heq).
    + right. split.
      * intros data' Hserved' Hw _.
        rewrite (served_functional _ _ _ _ Hserved' Hserved) in Hw.
        exact (Hn (well_shaped_lookups_on_objects _ Hw)).
      * now rewrite (run_raised R prog postal_code _ _ Heq).
Qed.

(** X8: with one argument, an answer of status 200, a well-shaped
    document and an extracted record that can be displayed (every field
    can be rendered, standard output can encode the lines), the run
    prints the retrieving line, sends the request, displays the record
    and exits with status 0. *)
Theorem successful_run R prog postal_code data :
  served R postal_code data ->
  well_shaped data ->
  presentable R (spec_record data (PyStr postal_code)) ->
  run R [prog; postal_code] =
  (Print (retrieving_message postal_code)
     :: the_request postal_code
     :: map Print (printed R (spec_record data (PyStr postal_code))),
   0%Z).
Proof.
  intros Hserved Hw Hp.
  pose proof (get_weather_served R postal_code data Hserved) as Hfetch.
  rewrite (parse_well_shaped data (PyStr postal_code) Hw) in Hfetch.
  now rewrite (run_record R prog postal_code _ _ Hfetch Hp).
Qed.

Lemma successful_run_witness :
  run sample_ok_runtime ["weather.py"; "10001"] =
  (Print (retrieving_message "10001")
     :: the_request "10001"
     :: map Print (printed sample_ok_runtime
                     (spec_record sample_document (PyStr "10001"))),
   0%Z).
Proof.
  apply (successful_run sample_ok_runtime "weather.py" "10001" sample_document).
  - exact served_sample.
  - exact well_shaped_sample.
  - exact presentable_sample.
Defined.

(** X9: when the decoded document is not an object (an array, a string,
    a number, a boolean or null), the [AttributeError] of the extraction
    passes through [get_weather] and [main]: the run ends with status 1
    and, after the retrieving line, prints no message of its own. *)
Theorem non_object_document_crashes R prog postal_code data :
  served R postal_code data ->
  ~ is_object data ->
  outcome (get_weather R postal_code) = Raise AttributeError /\
  run R [prog; postal_code] =
  ([ Print (retrieving_message postal_code); the_request postal_code ], 1%Z).
Proof.
  intros Hserved Hn.
  assert (Hparse : parse_weather_data data (PyStr postal_code)
                   = raise AttributeError).
  { unfold parse_weather_data, parse_body.
    now rewrite (py_get_non_object _ _ _ Hn), bind_raise. }
  pose proof (get_weather_served R postal_code data Hserved) as Hfetch.
  rewrite Hparse in Hfetch. split; [ now rewrite Hfetch | ].
  now rewrite (run_raised R prog postal_code _ _ Hfetch).
Qed.

Lemma non_object_document_crashes_witness :
  outcome (get_weather array_runtime "10001") = Raise AttributeError /\
  run array_runtime ["weather.py"; "10001"] =
  ([ Print (retrieving_message "10001"); the_request "10001" ], 1%Z).
Proof.
  apply (non_object_document_crashes array_runtime "weather.py" "10001"
           (PyList [])).
  - eexists. repeat split.
  - intros [o Ho]. discriminate.
Defined.

(** X10: when the decoded document is an object with a broken container
    (and every key lookup is made on an object), the run prints the
    parse report and then the failure line, and exits with status 1. *)
Theorem broken_document_run R prog postal_code data :
  served R postal_code data ->
  lookups_on_objects data ->
  broken_container data ->
  run R [prog; postal_code] =
  ([ Print (retrieving_message postal_code);
     the_request postal_code;
     Print parse_error_message;
     Print failed_message ],
   1%Z).
Proof.
  intros Hserved Hobj Hb.
  pose proof (get_weather_served R postal_code data Hserved) as Hfetch.
  rewrite (parse_broken data (PyStr postal_code) Hobj Hb) in Hfetch.
  now rewrite (run_no_record R prog postal_code _ Hfetch).
Qed.

Lemma broken_container_empty_conditions :
  broken_container empty_conditions_document.
Proof.
  unfold empty_conditions_document. eexists. split; [ reflexivity | ].
  left. eexists. split; [ reflexivity | constructor ].
Qed.

Lemma broken_document_run_witness :
  run empty_conditions_runtime ["weather.py"; "10001"] =
  ([ Print (retrieving_message "10001");
     the_request "10001";
     Print parse_error_message;
     Print failed_message ],
   1%Z).
Proof.
  apply (broken_document_run empty_conditions_runtime "weather.py" "10001"
           empty_conditions_document).
  - eexists. repeat split.
  - exact lookups_on_objects_empty_conditions.
  - exact broken_container_empty_conditions.
Defined.

(** X11: when the libraries raise only their own exceptions, the exit
    status of a run is 0 or 1, and it is 0 exactly when there is one
    argument, the answer has status 200, its body decodes, the decoded
    document is well shaped, and the extracted record can be displayed
    (every field can be rendered, standard output can encode the
    lines). *)
Theorem exit_status_zero_iff R argv :
  library_errors_only R ->
  (snd (run R argv) = 0%Z \/ snd (run R argv) = 1%Z) /\
  (snd (run R argv) = 0%Z <->
   exists prog postal_code data,
     argv = [prog; postal_code] /\
     served R postal_code data /\ well_shaped data /\
     presentable R (spec_record data (PyStr postal_code))).
Proof.
  intros Hlib.
  destruct argv as [ | prog [ | postal_code [ | extra rest ] ] ];
    try (rewrite run_wrong_count by (simpl; lia);
         split; [ now right | ];
         split; [ discriminate | intros (? & ? & ? & ? & _); discriminate ]).
  destruct (run_status R prog postal_code Hlib)
    as [(data & Hserved & Hw & Hp & H0) | (Hnone & H1)].
  - split; [ now left | ]. split; [ | intros _; exact H0 ].
    intros _. now exists prog, postal_code, data.
  - split; [ now right | ]. rewrite H1. split; [ discriminate | ].
    intros (prog' & p' & data & Heq & Hserved & Hw & Hp).
    injection Heq as <- <-. exfalso. exact (Hnone data Hserved Hw Hp).
Qed.

Lemma library_errors_only_sample : library_errors_only sample_ok_runtime.
Proof. split; intros; discriminate. Qed.

Lemma exit_status_zero_iff_witness :
  (snd (run sample_ok_runtime ["weather.py"; "10001"]) = 0%Z \/
   snd (run sample_ok_runtime ["weather.py"; "10001"]) = 1%Z) /\
  (snd (run sample_ok_runtime ["weather.py"; "10001"]) = 0%Z <->
   exists prog postal_code data,
     ["weather.py"; "10001"] = [prog; postal_code] /\
     served sample_ok_runtime postal_code data /\ well_shaped data /\
     presentable sample_ok_runtime (spec_record data (PyStr postal_code))).
Proof.
  apply (exit_status_zero_iff sample_ok_runtime ["weather.py"; "10001"]).
  exact library_errors_only_sample.
Defined.

